(** * VlcPlayer: the playback health-monitoring and recovery controller

    A shallow embedding of the [VlcPlayer] class of
    [src/native/vlc_player.cpp].

    The class keeps a handful of fields and drives libVLC through its C
    API.  The fields become the record [VlcPlayer]; libVLC, the steady
    clock and the C++ runtime become an abstract environment [Env] whose
    state ([World]) is threaded through every member function.  Each
    member function [bool f(args)] becomes
    [f : args -> VlcPlayer -> World -> bool * VlcPlayer * World].

    Every member function takes [playerMutex] for its whole body, so the
    functions run one at a time; the mutex itself is not represented.

    libVLC is a C library: its functions return, they do not throw.  The
    statements inside the [try] blocks that can throw are the
    [std::string] operations that allocate (copy assignment,
    [operator+]); the environment decides through [string_alloc] whether
    such an allocation succeeds.  A [try] block that contains no such
    statement never reaches its handler; this is noted at the function. *)

From Stdlib Require Import ZArith String List Bool Lia.
From Stdlib Require Import Floats.SpecFloat.
Import ListNotations.

Open Scope string_scope.
Open Scope Z_scope.

(** ** Handles and engine types *)

(** A non-null [libvlc_instance_t*]; a pointer that may be null is an
    [option]. *)
Definition libvlc_instance_t := N.
(** A non-null [libvlc_media_player_t*]. *)
Definition libvlc_media_player_t := N.
(** A non-null [libvlc_media_t*]. *)
Definition libvlc_media_t := N.
(** The window handle, an opaque value that is only stored and passed
    on; [0] is the null handle. *)
Definition HWND := Z.
(** A [std::chrono::steady_clock::time_point], in clock ticks. *)
Definition time_point := Z.
(** A C [float]; the code only copies such values. *)
Definition float := spec_float.

(** Modelled from the spec: the enumeration [libvlc_state_t] of the
    libVLC header, which is not part of the sources.  The interface
    section lists [Playing], [Paused], [Stopped], [Buffering], [Error],
    [Ended] and leaves further states open; [libvlc_NothingSpecial] and
    [libvlc_Opening] are the two further states of the header. *)
Inductive libvlc_state_t : Type :=
| libvlc_NothingSpecial
| libvlc_Opening
| libvlc_Buffering
| libvlc_Playing
| libvlc_Paused
| libvlc_Stopped
| libvlc_Ended
| libvlc_Error.

Definition libvlc_state_eqb (a b : libvlc_state_t) : bool :=
  match a, b with
  | libvlc_NothingSpecial, libvlc_NothingSpecial
  | libvlc_Opening, libvlc_Opening
  | libvlc_Buffering, libvlc_Buffering
  | libvlc_Playing, libvlc_Playing
  | libvlc_Paused, libvlc_Paused
  | libvlc_Stopped, libvlc_Stopped
  | libvlc_Ended, libvlc_Ended
  | libvlc_Error, libvlc_Error => true
  | _, _ => false
  end.

(** The fields of [libvlc_media_stats_t] that [getStats] reads. *)
Record libvlc_media_stats_t : Type := {
  f_input_bitrate : float;
  f_demux_bitrate : float;
  i_lost_abuffers : Z;
  i_displayed_pictures : Z;
  i_lost_pictures : Z
}.

(** [struct StreamStats], with its default member initialisers in
    [StreamStats_default]. *)
Record StreamStats : Type := {
  inputBitrate : float;
  demuxBitrate : float;
  lostBuffers : Z;
  displayedPictures : Z;
  lostPictures : Z
}.

Definition StreamStats_default : StreamStats :=
  {| inputBitrate := S754_zero false;
     demuxBitrate := S754_zero false;
     lostBuffers := 0;
     displayedPictures := 0;
     lostPictures := 0 |}.

(** ** The environment: libVLC, the clock and the allocator

    Calls that change the engine return the new world; queries read the
    world.  [libvlc_media_player_get_media] retains the media it
    returns, so it is a call that changes the world. *)
Class Env : Type := {
  World : Type;

  (** ticks of [steady_clock] per second *)
  ticks_per_second : Z;
  steady_clock_now : World -> time_point;
  Sleep : Z -> World -> World;
  (** does a [std::string] allocation made now succeed?  [false] is
      [std::bad_alloc]. *)
  string_alloc : World -> bool;

  libvlc_new : list string -> World -> option libvlc_instance_t * World;
  libvlc_release : libvlc_instance_t -> World -> World;
  libvlc_media_player_new :
    libvlc_instance_t -> World -> option libvlc_media_player_t * World;
  libvlc_media_player_release : libvlc_media_player_t -> World -> World;
  libvlc_media_player_set_hwnd :
    libvlc_media_player_t -> HWND -> World -> World;
  libvlc_media_player_is_playing : libvlc_media_player_t -> World -> Z;
  libvlc_media_player_stop : libvlc_media_player_t -> World -> World;
  libvlc_media_player_pause : libvlc_media_player_t -> World -> World;
  libvlc_media_player_play : libvlc_media_player_t -> World -> Z * World;
  libvlc_media_new_location :
    option libvlc_instance_t -> string -> World ->
    option libvlc_media_t * World;
  libvlc_media_player_set_media :
    libvlc_media_player_t -> libvlc_media_t -> World -> World;
  libvlc_media_release : libvlc_media_t -> World -> World;
  libvlc_audio_set_volume : libvlc_media_player_t -> Z -> World -> Z * World;
  libvlc_audio_get_volume : libvlc_media_player_t -> World -> Z;
  libvlc_media_player_get_state :
    libvlc_media_player_t -> World -> libvlc_state_t;
  libvlc_media_player_get_media :
    libvlc_media_player_t -> World -> option libvlc_media_t * World;
  libvlc_media_get_state : libvlc_media_t -> World -> libvlc_state_t;
  libvlc_media_player_get_time : libvlc_media_player_t -> World -> Z;
  libvlc_media_get_stats :
    libvlc_media_t -> World -> option libvlc_media_stats_t;
  libvlc_media_add_option : libvlc_media_t -> string -> World -> World
}.

(** ** The object state *)

Record VlcPlayer : Type := {
  vlcInstance : option libvlc_instance_t;
  mediaPlayer : option libvlc_media_player_t;
  hwnd : HWND;
  initialized : bool;
  lastFrameTime : time_point;
  freezeDetectionEnabled : bool;
  lastFrameCount : Z;
  currentUrl : string;
  isInErrorState : bool;
  lastStats : StreamStats;
  isRecording : bool;
  recordingPath : string;
  audioOnlyMode : bool
}.

(** Field assignments. *)
Definition set_vlcInstance (v : option libvlc_instance_t) (s : VlcPlayer) :=
  {| vlcInstance := v; mediaPlayer := mediaPlayer s; hwnd := hwnd s;
     initialized := initialized s; lastFrameTime := lastFrameTime s;
     freezeDetectionEnabled := freezeDetectionEnabled s;
     lastFrameCount := lastFrameCount s; currentUrl := currentUrl s;
     isInErrorState := isInErrorState s; lastStats := lastStats s;
     isRecording := isRecording s; recordingPath := recordingPath s;
     audioOnlyMode := audioOnlyMode s |}.

Definition set_mediaPlayer (v : option libvlc_media_player_t) (s : VlcPlayer) :=
  {| vlcInstance := vlcInstance s; mediaPlayer := v; hwnd := hwnd s;
     initialized := initialized s; lastFrameTime := lastFrameTime s;
     freezeDetectionEnabled := freezeDetectionEnabled s;
     lastFrameCount := lastFrameCount s; currentUrl := currentUrl s;
     isInErrorState := isInErrorState s; lastStats := lastStats s;
     isRecording := isRecording s; recordingPath := recordingPath s;
     audioOnlyMode := audioOnlyMode s |}.

Definition set_hwnd (v : HWND) (s : VlcPlayer) :=
  {| vlcInstance := vlcInstance s; mediaPlayer := mediaPlayer s; hwnd := v;
     initialized := initialized s; lastFrameTime := lastFrameTime s;
     freezeDetectionEnabled := freezeDetectionEnabled s;
     lastFrameCount := lastFrameCount s; currentUrl := currentUrl s;
     isInErrorState := isInErrorState s; lastStats := lastStats s;
     isRecording := isRecording s; recordingPath := recordingPath s;
     audioOnlyMode := audioOnlyMode s |}.

Definition set_initialized (v : bool) (s : VlcPlayer) :=
  {| vlcInstance := vlcInstance s; mediaPlayer := mediaPlayer s; hwnd := hwnd s;
     initialized := v; lastFrameTime := lastFrameTime s;
     freezeDetectionEnabled := freezeDetectionEnabled s;
     lastFrameCount := lastFrameCount s; currentUrl := currentUrl s;
     isInErrorState := isInErrorState s; lastStats := lastStats s;
     isRecording := isRecording s; recordingPath := recordingPath s;
     audioOnlyMode := audioOnlyMode s |}.

Definition set_lastFrameTime (v : time_point) (s : VlcPlayer) :=
  {| vlcInstance := vlcInstance s; mediaPlayer := mediaPlayer s; hwnd := hwnd s;
     initialized := initialized s; lastFrameTime := v;
     freezeDetectionEnabled := freezeDetectionEnabled s;
     lastFrameCount := lastFrameCount s; currentUrl := currentUrl s;
     isInErrorState := isInErrorState s; lastStats := lastStats s;
     isRecording := isRecording s; recordingPath := recordingPath s;
     audioOnlyMode := audioOnlyMode s |}.

Definition set_freezeDetectionEnabled (v : bool) (s : VlcPlayer) :=
  {| vlcInstance := vlcInstance s; mediaPlayer := mediaPlayer s; hwnd := hwnd s;
     initialized := initialized s; lastFrameTime := lastFrameTime s;
     freezeDetectionEnabled := v;
     lastFrameCount := lastFrameCount s; currentUrl := currentUrl s;
     isInErrorState := isInErrorState s; lastStats := lastStats s;
     isRecording := isRecording s; recordingPath := recordingPath s;
     audioOnlyMode := audioOnlyMode s |}.

Definition set_lastFrameCount (v : Z) (s : VlcPlayer) :=
  {| vlcInstance := vlcInstance s; mediaPlayer := mediaPlayer s; hwnd := hwnd s;
     initialized := initialized s; lastFrameTime := lastFrameTime s;
     freezeDetectionEnabled := freezeDetectionEnabled s;
     lastFrameCount := v; currentUrl := currentUrl s;
     isInErrorState := isInErrorState s; lastStats := lastStats s;
     isRecording := isRecording s; recordingPath := recordingPath s;
     audioOnlyMode := audioOnlyMode s |}.

Definition set_currentUrl (v : string) (s : VlcPlayer) :=
  {| vlcInstance := vlcInstance s; mediaPlayer := mediaPlayer s; hwnd := hwnd s;
     initialized := initialized s; lastFrameTime := lastFrameTime s;
     freezeDetectionEnabled := freezeDetectionEnabled s;
     lastFrameCount := lastFrameCount s; currentUrl := v;
     isInErrorState := isInErrorState s; lastStats := lastStats s;
     isRecording := isRecording s; recordingPath := recordingPath s;
     audioOnlyMode := audioOnlyMode s |}.

Definition set_isInErrorState (v : bool) (s : VlcPlayer) :=
  {| vlcInstance := vlcInstance s; mediaPlayer := mediaPlayer s; hwnd := hwnd s;
     initialized := initialized s; lastFrameTime := lastFrameTime s;
     freezeDetectionEnabled := freezeDetectionEnabled s;
     lastFrameCount := lastFrameCount s; currentUrl := currentUrl s;
     isInErrorState := v; lastStats := lastStats s;
     isRecording := isRecording s; recordingPath := recordingPath s;
     audioOnlyMode := audioOnlyMode s |}.

Definition set_lastStats (v : StreamStats) (s : VlcPlayer) :=
  {| vlcInstance := vlcInstance s; mediaPlayer := mediaPlayer s; hwnd := hwnd s;
     initialized := initialized s; lastFrameTime := lastFrameTime s;
     freezeDetectionEnabled := freezeDetectionEnabled s;
     lastFrameCount := lastFrameCount s; currentUrl := currentUrl s;
     isInErrorState := isInErrorState s; lastStats := v;
     isRecording := isRecording s; recordingPath := recordingPath s;
     audioOnlyMode := audioOnlyMode s |}.

Definition set_isRecording (v : bool) (s : VlcPlayer) :=
  {| vlcInstance := vlcInstance s; mediaPlayer := mediaPlayer s; hwnd := hwnd s;
     initialized := initialized s; lastFrameTime := lastFrameTime s;
     freezeDetectionEnabled := freezeDetectionEnabled s;
     lastFrameCount := lastFrameCount s; currentUrl := currentUrl s;
     isInErrorState := isInErrorState s; lastStats := lastStats s;
     isRecording := v; recordingPath := recordingPath s;
     audioOnlyMode := audioOnlyMode s |}.

Definition set_recordingPath (v : string) (s : VlcPlayer) :=
  {| vlcInstance := vlcInstance s; mediaPlayer := mediaPlayer s; hwnd := hwnd s;
     initialized := initialized s; lastFrameTime := lastFrameTime s;
     freezeDetectionEnabled := freezeDetectionEnabled s;
     lastFrameCount := lastFrameCount s; currentUrl := currentUrl s;
     isInErrorState := isInErrorState s; lastStats := lastStats s;
     isRecording := isRecording s; recordingPath := v;
     audioOnlyMode := audioOnlyMode s |}.

(** The result of running the body of a [try] block: it returned a
    value, or a statement threw. *)
Inductive outcome (A : Type) : Type :=
| Returned (a : A)
| Thrown.
Arguments Returned {A} a.
Arguments Thrown {A}.

(** The argument vector passed to [libvlc_new]. *)
Definition vlc_args : list string :=
  [ "--no-video-title-show"; "--no-xlib"; "--no-snapshot-preview";
    "--quiet"; "--network-caching=3000"; "--clock-jitter=0";
    "--clock-synchro=0" ].

(** [volume < 0 ? 0 : (volume > 100 ? 100 : volume)] *)
Definition clampedVolume (volume : Z) : Z :=
  if volume <? 0 then 0 else if volume >? 100 then 100 else volume.

(** The guard [!initialized || !mediaPlayer] opening most member
    functions: [live s] is the player handle when the guard lets the
    call through. *)
Definition live (s : VlcPlayer) : option libvlc_media_player_t :=
  if initialized s then mediaPlayer s else None.

Section Operations.
Context {E : Env}.

(** The constructor: every field takes its default member initialiser,
    then [lastFrameTime = steady_clock::now()]. *)
Definition VlcPlayer_new (w : World) : VlcPlayer :=
  {| vlcInstance := None; mediaPlayer := None; hwnd := 0;
     initialized := false; lastFrameTime := steady_clock_now w;
     freezeDetectionEnabled := false; lastFrameCount := 0;
     currentUrl := ""; isInErrorState := false;
     lastStats := StreamStats_default;
     isRecording := false; recordingPath := "";
     audioOnlyMode := false |}.

Definition recreateMediaPlayer (s : VlcPlayer) (w : World)
  : bool * VlcPlayer * World :=
  match vlcInstance s with
  | None => (false, s, w)
  | Some inst =>
      (* clean up old player *)
      let '(s, w) :=
        match mediaPlayer s with
        | Some old =>
            (set_mediaPlayer None s, libvlc_media_player_release old w)
        | None => (s, w)
        end in
      (* create new player *)
      let '(p, w) := libvlc_media_player_new inst w in
      let s := set_mediaPlayer p s in
      match p with
      | None => (false, s, w)
      | Some mp =>
          (* restore HWND *)
          let w := libvlc_media_player_set_hwnd mp (hwnd s) w in
          (true, set_isInErrorState false s, w)
      end
  end.

Definition initialize (windowHandle : HWND) (s : VlcPlayer) (w : World)
  : bool * VlcPlayer * World :=
  if initialized s then (true, s, w)
  else
    let s := set_hwnd windowHandle s in
    let '(i, w) := libvlc_new vlc_args w in
    let s := set_vlcInstance i s in
    match i with
    | None => (false, s, w)
    | Some inst =>
        let '(p, w) := libvlc_media_player_new inst w in
        let s := set_mediaPlayer p s in
        match p with
        | None =>
            let w := libvlc_release inst w in
            (false, set_vlcInstance None s, w)
        | Some mp =>
            let w := libvlc_media_player_set_hwnd mp (hwnd s) w in
            (true, set_initialized true s, w)
        end
    end.

(** The body of the [try] block of [play].  [currentUrl = url] copies
    the string and is the statement that can throw. *)
Definition play_try (url : string) (mp : libvlc_media_player_t)
    (s : VlcPlayer) (w : World) : outcome bool * VlcPlayer * World :=
  (* stop current playback, wait for clean stop *)
  let w :=
    if libvlc_media_player_is_playing mp w =? 0 then w
    else Sleep 100 (libvlc_media_player_stop mp w) in
  (* create media from URL *)
  let '(media, w) := libvlc_media_new_location (vlcInstance s) url w in
  match media with
  | None => (Returned false, s, w)
  | Some m =>
      let w := libvlc_media_player_set_media mp m w in
      let w := libvlc_media_release m w in
      (* start playback *)
      let '(result, w) := libvlc_media_player_play mp w in
      if result =? 0 then
        if string_alloc w then
          let s := set_currentUrl url s in
          let s := set_lastFrameTime (steady_clock_now w) s in
          let s := set_freezeDetectionEnabled true s in
          let s := set_lastFrameCount 0 s in
          let s := set_isInErrorState false s in
          (Returned true, s, w)
        else (Thrown, s, w)
      else (Returned false, s, w)
  end.

Definition play (url : string) (s : VlcPlayer) (w : World)
  : bool * VlcPlayer * World :=
  match live s with
  | None => (false, s, w)
  | Some mp =>
      match play_try url mp s w with
      | (Returned b, s, w) => (b, s, w)
      | (Thrown, s, w) => (false, set_isInErrorState true s, w)
      end
  end.

(** [stop]: the [try] block holds a libVLC call, two assignments of
    [bool] and [currentUrl.clear()], none of which throws; its handler
    ([return false]) is never reached. *)
Definition stop (s : VlcPlayer) (w : World) : bool * VlcPlayer * World :=
  match live s with
  | None => (false, s, w)
  | Some mp =>
      let w := libvlc_media_player_stop mp w in
      let s := set_freezeDetectionEnabled false s in
      let s := set_currentUrl "" s in
      let s := set_isInErrorState false s in
      (true, s, w)
  end.

Definition pause (s : VlcPlayer) (w : World) : bool * VlcPlayer * World :=
  match live s with
  | None => (false, s, w)
  | Some mp => (true, s, libvlc_media_player_pause mp w)
  end.

Definition resume (s : VlcPlayer) (w : World) : bool * VlcPlayer * World :=
  match live s with
  | None => (false, s, w)
  | Some mp =>
      let w :=
        if libvlc_media_player_is_playing mp w =? 0
        then snd (libvlc_media_player_play mp w)
        else w in
      (true, s, w)
  end.

Definition setVolume (volume : Z) (s : VlcPlayer) (w : World)
  : bool * VlcPlayer * World :=
  match live s with
  | None => (false, s, w)
  | Some mp =>
      (* VLC volume is 0-100 *)
      (true, s, snd (libvlc_audio_set_volume mp (clampedVolume volume) w))
  end.

Definition getVolume (s : VlcPlayer) (w : World) : Z :=
  match live s with
  | None => 0
  | Some mp => libvlc_audio_get_volume mp w
  end.

Definition isPlaying (s : VlcPlayer) (w : World) : bool :=
  match live s with
  | None => false
  | Some mp => libvlc_media_player_is_playing mp w =? 1
  end.

(** [getState]: the [try] block holds one libVLC query and a
    [switch]; its handler ([return "error"]) is never reached. *)
Definition getState (s : VlcPlayer) (w : World) : string :=
  match live s with
  | None => "stopped"
  | Some mp =>
      match libvlc_media_player_get_state mp w with
      | libvlc_Playing => "playing"
      | libvlc_Paused => "paused"
      | libvlc_Stopped => "stopped"
      | libvlc_Buffering => "buffering"
      | libvlc_Error => "error"
      | _ => "stopped"
      end
  end.

(** [duration_cast<seconds>(now - lastFrameTime).count()]: the cast
    truncates toward zero. *)
Definition elapsed_seconds (now last : time_point) : Z :=
  Z.quot (now - last) ticks_per_second.

(** [isStreamFrozen]: the [try] block holds libVLC queries, a clock
    read and integer comparisons; its handler ([return true]) is never
    reached. *)
Definition isStreamFrozen (freezeThresholdSeconds : Z)
    (s : VlcPlayer) (w : World) : bool * World :=
  match live s with
  | None => (false, w)
  | Some mp =>
      if negb (freezeDetectionEnabled s) then (false, w)
      else
        (* check if player is in error state *)
        let state := libvlc_media_player_get_state mp w in
        if libvlc_state_eqb state libvlc_Error
           || libvlc_state_eqb state libvlc_Ended
        then (true, w)
        (* if not playing, not frozen *)
        else if negb (libvlc_state_eqb state libvlc_Playing)
        then (false, w)
        else
          (* check time since last frame update *)
          let now := steady_clock_now w in
          let elapsed := elapsed_seconds now (lastFrameTime s) in
          let '(media, w) := libvlc_media_player_get_media mp w in
          let mediaError :=
            match media with
            | Some m =>
                libvlc_state_eqb (libvlc_media_get_state m w) libvlc_Error
            | None => false
            end in
          if mediaError then (true, w)
          (* if elapsed time exceeds threshold, stream is frozen *)
          else if elapsed >=? freezeThresholdSeconds then (true, w)
          else (false, w)
  end.

(** What the media check of [isStreamFrozen] finds: the player has a
    current media and that media is in state [libvlc_Error]. *)
Definition media_in_error (mp : libvlc_media_player_t) (w : World) : bool :=
  match libvlc_media_player_get_media mp w with
  | (Some m, w') =>
      libvlc_state_eqb (libvlc_media_get_state m w') libvlc_Error
  | (None, _) => false
  end.

(** [updateFrameTime]: guarded by [freezeDetectionEnabled &&
    mediaPlayer] only; nothing in its [try] block throws. *)
Definition updateFrameTime (s : VlcPlayer) (w : World) : VlcPlayer :=
  match freezeDetectionEnabled s, mediaPlayer s with
  | true, Some mp =>
      if libvlc_media_player_is_playing mp w =? 0 then s
      else
        let currentTime := libvlc_media_player_get_time mp w in
        if negb (currentTime =? lastFrameCount s) && (currentTime >? 0)
        then set_lastFrameCount currentTime
               (set_lastFrameTime (steady_clock_now w) s)
        else s
  | _, _ => s
  end.

Definition getCurrentUrl (s : VlcPlayer) : string := currentUrl s.

Definition isInError (s : VlcPlayer) : bool := isInErrorState s.

(** [getStats]: the [try] block holds libVLC calls and copies of
    scalars, none of which throws, so its handler ([return lastStats])
    is never reached: [lastStats] is written here and read nowhere. *)
Definition getStats (s : VlcPlayer) (w : World)
  : StreamStats * VlcPlayer * World :=
  let stats := StreamStats_default in
  match live s with
  | None => (stats, s, w)
  | Some mp =>
      let '(media, w) := libvlc_media_player_get_media mp w in
      match media with
      | None => (stats, s, w)
      | Some m =>
          match libvlc_media_get_stats m w with
          | Some vlcStats =>
              let stats :=
                {| inputBitrate := f_input_bitrate vlcStats;
                   demuxBitrate := f_demux_bitrate vlcStats;
                   lostBuffers := i_lost_abuffers vlcStats;
                   displayedPictures := i_displayed_pictures vlcStats;
                   lostPictures := i_lost_pictures vlcStats |} in
              (stats, set_lastStats stats s, w)
          | None => (stats, s, w)
          end
      end
  end.

(** The stream-output descriptor built by [startRecording]. *)
Definition sout_of (filePath : string) : string :=
  "#duplicate{dst=display,dst=std{access=file,mux=ts,dst="
    ++ filePath ++ "}}".

(** The body of the [try] block of [startRecording].  Building [sout]
    and [recordingPath = filePath] allocate and can throw. *)
Definition startRecording_try (filePath : string)
    (mp : libvlc_media_player_t) (s : VlcPlayer) (w : World)
  : outcome bool * VlcPlayer * World :=
  if string_alloc w then
    let sout := sout_of filePath in
    (* get current media *)
    let '(media, w) := libvlc_media_player_get_media mp w in
    match media with
    | None => (Returned false, s, w)
    | Some m =>
        (* add sout option to media *)
        let w := libvlc_media_add_option m sout w in
        let s := set_isRecording true s in
        if string_alloc w
        then (Returned true, set_recordingPath filePath s, w)
        else (Thrown, s, w)
    end
  else (Thrown, s, w).

Definition startRecording (filePath : string) (s : VlcPlayer) (w : World)
  : bool * VlcPlayer * World :=
  match live s with
  | None => (false, s, w)
  | Some mp =>
      if isRecording s then (false, s, w)   (* already recording *)
      else
        match startRecording_try filePath mp s w with
        | (Returned b, s, w) => (b, s, w)
        | (Thrown, s, w) => (false, s, w)
        end
  end.

(** [stopRecording]: an assignment of a [bool] and
    [recordingPath.clear()] do not throw. *)
Definition stopRecording (s : VlcPlayer) : bool * VlcPlayer :=
  if negb (isRecording s) then (false, s)
  else (true, set_recordingPath "" (set_isRecording false s)).

Definition getIsRecording (s : VlcPlayer) : bool := isRecording s.

Definition getRecordingPath (s : VlcPlayer) : string := recordingPath s.

(** [cleanup], run by the destructor. *)
Definition cleanup (s : VlcPlayer) (w : World) : VlcPlayer * World :=
  let '(s, w) :=
    match mediaPlayer s with
    | Some mp =>
        (set_mediaPlayer None s,
         libvlc_media_player_release mp (libvlc_media_player_stop mp w))
    | None => (s, w)
    end in
  let '(s, w) :=
    match vlcInstance s with
    | Some inst => (set_vlcInstance None s, libvlc_release inst w)
    | None => (s, w)
    end in
  (set_initialized false s, w).

(** ** Sequences of calls

    The calls a host can make on the object, and [Cleanup], which the
    destructor runs.  Between two calls the engine moves on by itself,
    so each call meets a world of its own. *)
Inductive call : Type :=
| Initialize (windowHandle : HWND)
| Play (url : string)
| Stop
| Pause
| Resume
| SetVolume (volume : Z)
| GetVolume
| IsPlaying
| GetState
| IsStreamFrozen (freezeThresholdSeconds : Z)
| UpdateFrameTime
| RecreateMediaPlayer
| GetCurrentUrl
| IsInError
| GetStats
| StartRecording (filePath : string)
| StopRecording
| IsRecording
| GetRecordingPath
| Cleanup.

(** The object after a call made in world [w]. *)
Definition after (c : call) (s : VlcPlayer) (w : World) : VlcPlayer :=
  match c with
  | Initialize h => snd (fst (initialize h s w))
  | Play url => snd (fst (play url s w))
  | Stop => snd (fst (stop s w))
  | Pause => snd (fst (pause s w))
  | Resume => snd (fst (resume s w))
  | SetVolume v => snd (fst (setVolume v s w))
  | UpdateFrameTime => updateFrameTime s w
  | RecreateMediaPlayer => snd (fst (recreateMediaPlayer s w))
  | GetStats => snd (fst (getStats s w))
  | StartRecording p => snd (fst (startRecording p s w))
  | StopRecording => snd (stopRecording s)
  | Cleanup => fst (cleanup s w)
  | GetVolume | IsPlaying | GetState | IsStreamFrozen _
  | GetCurrentUrl | IsInError | IsRecording | GetRecordingPath => s
  end.

(** The object after a list of calls, each paired with the world it
    meets. *)
Fixpoint after_all (cs : list (call * World)) (s : VlcPlayer) : VlcPlayer :=
  match cs with
  | [] => s
  | (c, w) :: cs => after_all cs (after c s w)
  end.

End Operations.

(** ** The N-API functions

    The functions the module exports to JavaScript.  They share one
    object, [globalPlayer], a pointer that is null until [Initialize]
    creates the object; nothing ever deletes it, so [cleanup] is run by
    none of them.  Outside the [try] blocks of the class, allocations
    ([new VlcPlayer()], the copies of strings) are taken to succeed. *)
Module Addon.

(** The JavaScript side: numbers and strings, and the conversions of
    node-addon-api, which are not part of the sources. *)
Class Napi : Type := {
  js_number : Type;
  js_string : Type;
  (** [Napi::Number::Int64Value], [Napi::Number::Int32Value] *)
  Int64Value : js_number -> Z;
  Int32Value : js_number -> Z;
  (** [Napi::Number::New] of an [int], of an [int64_t], of a [float] *)
  Number_of_int : Z -> js_number;
  Number_of_int64 : Z -> js_number;
  Number_of_float : float -> js_number;
  (** [Napi::String::Utf8Value], [Napi::String::New] *)
  Utf8Value : js_string -> string;
  String_New : string -> js_string
}.

Section Functions.
Context {E : Env} {N : Napi}.

#[warnings="-register-all"]
Inductive napi_value : Type :=
| Null
| Undefined
| Boolean (b : bool)
| Number (n : js_number)
| String (s : js_string)
| Object (properties : list (string * napi_value)).

(** A JavaScript exception raised by [ThrowAsJavaScriptException]. *)
Inductive js_exception : Type :=
| TypeError (message : string)
| Error (message : string).

(** What a call hands back: the value returned, and the exception left
    pending, if any. *)
Record napi_result : Type := {
  returned : napi_value;
  pending : option js_exception
}.

Definition value (v : napi_value) : napi_result :=
  {| returned := v; pending := None |}.

Definition throwing (e : js_exception) (v : napi_value) : napi_result :=
  {| returned := v; pending := Some e |}.

(** [info.Length() < 1 || !info[0].IsNumber()] fails: the first argument,
    when it is a number. *)
Definition number_argument (info : list napi_value) : option js_number :=
  match info with
  | Number n :: _ => Some n
  | _ => None
  end.

(** [info.Length() < 1 || !info[0].IsString()] fails: the first argument,
    when it is a string. *)
Definition string_argument (info : list napi_value) : option js_string :=
  match info with
  | String s :: _ => Some s
  | _ => None
  end.

(** [reinterpret_cast<HWND>(static_cast<uintptr_t>(v))] of an
    [int64_t]: the value modulo [2^64]. *)
Definition HWND_of_int64 (v : Z) : HWND := v mod 2 ^ 64.

(** A function of the module: from the arguments, [globalPlayer] and the
    world to the result, [globalPlayer] and the world. *)
Definition napi_function : Type :=
  list napi_value -> option VlcPlayer -> World ->
  napi_result * option VlcPlayer * World.

Definition Initialize : napi_function := fun info globalPlayer w =>
  match number_argument info with
  | None =>
      (throwing (TypeError "HWND (number) expected") Null, globalPlayer, w)
  | Some n =>
      let hwnd := HWND_of_int64 (Int64Value n) in
      let player :=
        match globalPlayer with
        | Some p => p
        | None => VlcPlayer_new w
        end in
      let '(success, player, w) := initialize hwnd player w in
      (value (Boolean success), Some player, w)
  end.

Definition Play : napi_function := fun info globalPlayer w =>
  match string_argument info with
  | None => (throwing (TypeError "URL string expected") Null, globalPlayer, w)
  | Some s =>
      let url := Utf8Value s in
      match globalPlayer with
      | None =>
          (throwing (Error "Player not initialized") Null, globalPlayer, w)
      | Some player =>
          let '(success, player, w) := play url player w in
          (value (Boolean success), Some player, w)
      end
  end.

Definition Stop : napi_function := fun info globalPlayer w =>
  match globalPlayer with
  | None => (value (Boolean false), globalPlayer, w)
  | Some player =>
      let '(success, player, w) := stop player w in
      (value (Boolean success), Some player, w)
  end.

Definition Pause : napi_function := fun info globalPlayer w =>
  match globalPlayer with
  | None => (value (Boolean false), globalPlayer, w)
  | Some player =>
      let '(success, player, w) := pause player w in
      (value (Boolean success), Some player, w)
  end.

Definition Resume : napi_function := fun info globalPlayer w =>
  match globalPlayer with
  | None => (value (Boolean false), globalPlayer, w)
  | Some player =>
      let '(success, player, w) := resume player w in
      (value (Boolean success), Some player, w)
  end.

Definition SetVolume : napi_function := fun info globalPlayer w =>
  match number_argument info with
  | None =>
      (throwing (TypeError "Volume (number) expected") Null, globalPlayer, w)
  | Some n =>
      let volume := Int32Value n in
      match globalPlayer with
      | None => (value (Boolean false), globalPlayer, w)
      | Some player =>
          let '(success, player, w) := setVolume volume player w in
          (value (Boolean success), Some player, w)
      end
  end.

Definition GetVolume : napi_function := fun info globalPlayer w =>
  match globalPlayer with
  | None => (value (Number (Number_of_int 0)), globalPlayer, w)
  | Some player =>
      (value (Number (Number_of_int (getVolume player w))), globalPlayer, w)
  end.

Definition IsPlaying : napi_function := fun info globalPlayer w =>
  match globalPlayer with
  | None => (value (Boolean false), globalPlayer, w)
  | Some player => (value (Boolean (isPlaying player w)), globalPlayer, w)
  end.

Definition GetState : napi_function := fun info globalPlayer w =>
  match globalPlayer with
  | None => (value (String (String_New "stopped")), globalPlayer, w)
  | Some player =>
      (value (String (String_New (getState player w))), globalPlayer, w)
  end.

(** The threshold [IsStreamFrozen] passes on: ten seconds unless the
    first argument is a number. *)
Definition threshold_argument (info : list napi_value) : Z :=
  match number_argument info with
  | Some n => Int32Value n
  | None => 10
  end.

Definition IsStreamFrozen : napi_function := fun info globalPlayer w =>
  match globalPlayer with
  | None => (value (Boolean false), globalPlayer, w)
  | Some player =>
      let threshold := threshold_argument info in
      let '(frozen, w) := isStreamFrozen threshold player w in
      (value (Boolean frozen), globalPlayer, w)
  end.

Definition UpdateFrameTime : napi_function := fun info globalPlayer w =>
  match globalPlayer with
  | None => (value Null, globalPlayer, w)
  | Some player => (value Null, Some (updateFrameTime player w), w)
  end.

Definition RecreateMediaPlayer : napi_function := fun info globalPlayer w =>
  match globalPlayer with
  | None => (value (Boolean false), globalPlayer, w)
  | Some player =>
      let '(success, player, w) := recreateMediaPlayer player w in
      (value (Boolean success), Some player, w)
  end.

Definition GetCurrentUrl : napi_function := fun info globalPlayer w =>
  match globalPlayer with
  | None => (value (String (String_New "")), globalPlayer, w)
  | Some player =>
      (value (String (String_New (getCurrentUrl player))), globalPlayer, w)
  end.

Definition IsInError : napi_function := fun info globalPlayer w =>
  match globalPlayer with
  | None => (value (Boolean false), globalPlayer, w)
  | Some player => (value (Boolean (isInError player)), globalPlayer, w)
  end.

Definition GetStats : napi_function := fun info globalPlayer w =>
  match globalPlayer with
  | None =>
      (value (Object
                [ ("inputBitrate", Number (Number_of_int 0));
                  ("demuxBitrate", Number (Number_of_int 0));
                  ("lostBuffers", Number (Number_of_int 0));
                  ("displayedPictures", Number (Number_of_int 0));
                  ("lostPictures", Number (Number_of_int 0)) ]),
       globalPlayer, w)
  | Some player =>
      let '(stats, player, w) := getStats player w in
      (value (Object
                [ ("inputBitrate",
                   Number (Number_of_float (inputBitrate stats)));
                  ("demuxBitrate",
                   Number (Number_of_float (demuxBitrate stats)));
                  ("lostBuffers",
                   Number (Number_of_int64 (lostBuffers stats)));
                  ("displayedPictures",
                   Number (Number_of_int64 (displayedPictures stats)));
                  ("lostPictures",
                   Number (Number_of_int64 (lostPictures stats))) ]),
       Some player, w)
  end.

Definition StartRecording : napi_function := fun info globalPlayer w =>
  match globalPlayer with
  | None => (value (Boolean false), globalPlayer, w)
  | Some player =>
      match string_argument info with
      | None =>
          (throwing (TypeError "File path string expected") (Boolean false),
           globalPlayer, w)
      | Some s =>
          let filePath := Utf8Value s in
          let '(success, player, w) := startRecording filePath player w in
          (value (Boolean success), Some player, w)
      end
  end.

Definition StopRecording : napi_function := fun info globalPlayer w =>
  match globalPlayer with
  | None => (value (Boolean false), globalPlayer, w)
  | Some player =>
      let '(success, player) := stopRecording player in
      (value (Boolean success), Some player, w)
  end.

Definition IsRecording : napi_function := fun info globalPlayer w =>
  match globalPlayer with
  | None => (value (Boolean false), globalPlayer, w)
  | Some player => (value (Boolean (getIsRecording player)), globalPlayer, w)
  end.

Definition GetRecordingPath : napi_function := fun info globalPlayer w =>
  match globalPlayer with
  | None => (value (String (String_New "")), globalPlayer, w)
  | Some player =>
      (value (String (String_New (getRecordingPath player))), globalPlayer, w)
  end.

(** [Init]: the names under which the functions are exported. *)
Definition exports : list (string * napi_function) :=
  [ ("initialize", Initialize); ("play", Play); ("stop", Stop);
    ("pause", Pause); ("resume", Resume); ("setVolume", SetVolume);
    ("getVolume", GetVolume); ("isPlaying", IsPlaying);
    ("getState", GetState); ("isStreamFrozen", IsStreamFrozen);
    ("updateFrameTime", UpdateFrameTime);
    ("recreateMediaPlayer", RecreateMediaPlayer);
    ("getCurrentUrl", GetCurrentUrl); ("isInError", IsInError);
    ("getStats", GetStats); ("startRecording", StartRecording);
    ("stopRecording", StopRecording); ("isRecording", IsRecording);
    ("getRecordingPath", GetRecordingPath) ].

(** The object [globalPlayer] points to after a list of calls, each a
    function with its arguments and the world it meets. *)
Fixpoint player_after
    (calls : list (napi_function * list napi_value * World))
    (globalPlayer : option VlcPlayer) : option VlcPlayer :=
  match calls with
  | [] => globalPlayer
  | (f, info, w) :: calls =>
      player_after calls (snd (fst (f info globalPlayer w)))
  end.

End Functions.

End Addon.

(** ** A scripted engine

    An environment for running the operations on concrete inputs: the
    world records every call made to the engine, newest first, and holds
    the answers the engine gives.  Volume and current media are stored
    as a real engine stores them. *)
Module Script.

Inductive engine_call : Type :=
| c_new (args : list string)
| c_release (i : libvlc_instance_t)
| c_player_new (i : libvlc_instance_t)
| c_player_release (p : libvlc_media_player_t)
| c_set_hwnd (p : libvlc_media_player_t) (h : HWND)
| c_stop (p : libvlc_media_player_t)
| c_pause (p : libvlc_media_player_t)
| c_play (p : libvlc_media_player_t)
| c_sleep (ms : Z)
| c_media_new (i : option libvlc_instance_t) (url : string)
| c_set_media (p : libvlc_media_player_t) (m : libvlc_media_t)
| c_media_release (m : libvlc_media_t)
| c_set_volume (p : libvlc_media_player_t) (v : Z)
| c_get_media (p : libvlc_media_player_t)
| c_add_option (m : libvlc_media_t) (opt : string).

Record world : Type := {
  log : list engine_call;
  clock : time_point;
  next_instance : option libvlc_instance_t;
  next_player : option libvlc_media_player_t;
  next_media : option libvlc_media_t;
  play_result : Z;
  playing : Z;
  state : libvlc_state_t;
  media : option libvlc_media_t;
  media_state : libvlc_state_t;
  time : Z;
  volume : Z;
  stats : option libvlc_media_stats_t
}.

Definition logged (c : engine_call) (w : world) : world :=
  {| log := c :: log w; clock := clock w;
     next_instance := next_instance w; next_player := next_player w;
     next_media := next_media w; play_result := play_result w;
     playing := playing w; state := state w; media := media w;
     media_state := media_state w; time := time w; volume := volume w;
     stats := stats w |}.

Definition with_clock (t : time_point) (w : world) : world :=
  {| log := log w; clock := t;
     next_instance := next_instance w; next_player := next_player w;
     next_media := next_media w; play_result := play_result w;
     playing := playing w; state := state w; media := media w;
     media_state := media_state w; time := time w; volume := volume w;
     stats := stats w |}.

Definition with_media (m : option libvlc_media_t) (w : world) : world :=
  {| log := log w; clock := clock w;
     next_instance := next_instance w; next_player := next_player w;
     next_media := next_media w; play_result := play_result w;
     playing := playing w; state := state w; media := m;
     media_state := media_state w; time := time w; volume := volume w;
     stats := stats w |}.

Definition with_volume (v : Z) (w : world) : world :=
  {| log := log w; clock := clock w;
     next_instance := next_instance w; next_player := next_player w;
     next_media := next_media w; play_result := play_result w;
     playing := playing w; state := state w; media := media w;
     media_state := media_state w; time := time w; volume := v;
     stats := stats w |}.

Definition ticks : Z := 1000000000.

(** The scripted environment; [alloc] says whether string allocations
    succeed. *)
Definition env (alloc : bool) : Env :=
  {| World := world;
     ticks_per_second := ticks;
     steady_clock_now := clock;
     Sleep := fun ms w =>
       with_clock (clock w + ms * (ticks / 1000)) (logged (c_sleep ms) w);
     string_alloc := fun _ => alloc;
     libvlc_new := fun args w => (next_instance w, logged (c_new args) w);
     libvlc_release := fun i w => logged (c_release i) w;
     libvlc_media_player_new := fun i w =>
       (next_player w, logged (c_player_new i) w);
     libvlc_media_player_release := fun p w => logged (c_player_release p) w;
     libvlc_media_player_set_hwnd := fun p h w => logged (c_set_hwnd p h) w;
     libvlc_media_player_is_playing := fun _ w => playing w;
     libvlc_media_player_stop := fun p w => logged (c_stop p) w;
     libvlc_media_player_pause := fun p w => logged (c_pause p) w;
     libvlc_media_player_play := fun p w =>
       (play_result w, logged (c_play p) w);
     libvlc_media_new_location := fun i url w =>
       (next_media w, logged (c_media_new i url) w);
     libvlc_media_player_set_media := fun p m w =>
       with_media (Some m) (logged (c_set_media p m) w);
     libvlc_media_release := fun m w => logged (c_media_release m) w;
     libvlc_audio_set_volume := fun p v w =>
       if (0 <=? v) && (v <=? 100)
       then (0, with_volume v (logged (c_set_volume p v) w))
       else (-1, logged (c_set_volume p v) w);
     libvlc_audio_get_volume := fun _ w => volume w;
     libvlc_media_player_get_state := fun _ w => state w;
     libvlc_media_player_get_media := fun p w =>
       (media w, logged (c_get_media p) w);
     libvlc_media_get_state := fun _ w => media_state w;
     libvlc_media_player_get_time := fun _ w => time w;
     libvlc_media_get_stats := fun _ w => stats w;
     libvlc_media_add_option := fun m opt w => logged (c_add_option m opt) w
  |}.

(** An engine at rest that grants every request: instance [1], player
    [2], media [3]; nothing loaded, nothing playing. *)
Definition idle : world :=
  {| log := []; clock := 0;
     next_instance := Some 1%N; next_player := Some 2%N;
     next_media := Some 3%N; play_result := 0;
     playing := 0; state := libvlc_NothingSpecial; media := None;
     media_state := libvlc_NothingSpecial; time := 0; volume := 0;
     stats := None |}.

(** The same engine while it plays media [3]. *)
Definition streaming (now : time_point) (st mst : libvlc_state_t) : world :=
  {| log := []; clock := now;
     next_instance := Some 1%N; next_player := Some 2%N;
     next_media := Some 3%N; play_result := 0;
     playing := 1; state := st; media := Some 3%N;
     media_state := mst; time := 0; volume := 0;
     stats := None |}.

(** An engine that cannot create a player. *)
Definition no_player : world :=
  {| log := []; clock := 0;
     next_instance := Some 1%N; next_player := None;
     next_media := Some 3%N; play_result := 0;
     playing := 0; state := libvlc_NothingSpecial; media := None;
     media_state := libvlc_NothingSpecial; time := 0; volume := 0;
     stats := None |}.

(** An engine that cannot open a location. *)
Definition no_media : world :=
  {| log := []; clock := 0;
     next_instance := Some 1%N; next_player := Some 2%N;
     next_media := None; play_result := 0;
     playing := 0; state := libvlc_NothingSpecial; media := None;
     media_state := libvlc_NothingSpecial; time := 0; volume := 0;
     stats := None |}.

(** An engine whose play request fails. *)
Definition play_fails : world :=
  {| log := []; clock := 0;
     next_instance := Some 1%N; next_player := Some 2%N;
     next_media := Some 3%N; play_result := -1;
     playing := 0; state := libvlc_NothingSpecial; media := None;
     media_state := libvlc_NothingSpecial; time := 0; volume := 0;
     stats := None |}.

(** An engine playing media [3] that answers a statistics request with
    [answer]. *)
Definition reporting (answer : option libvlc_media_stats_t) : world :=
  {| log := []; clock := 0;
     next_instance := Some 1%N; next_player := Some 2%N;
     next_media := Some 3%N; play_result := 0;
     playing := 1; state := libvlc_Playing; media := Some 3%N;
     media_state := libvlc_Playing; time := 0; volume := 0;
     stats := answer |}.

Definition sample_stats : libvlc_media_stats_t :=
  {| f_input_bitrate := S754_finite false 3 (-1);
     f_demux_bitrate := S754_finite false 5 (-2);
     i_lost_abuffers := 4;
     i_displayed_pictures := 250;
     i_lost_pictures := 2 |}.

Definition url : string := "udp://239.0.0.1:1234".

(** A session after [initialize(42)] and a successful [play(url)]. *)
Definition session : VlcPlayer :=
  after_all (E := env true)
    [ (Initialize 42, idle); (Play url, idle) ]
    (VlcPlayer_new (E := env true) idle).


(** An object after [initialize(42)] only: no source loaded. *)
Definition ready : VlcPlayer :=
  after_all (E := env true)
    [ (Initialize 42, idle) ]
    (VlcPlayer_new (E := env true) idle).

(** [initialize(42)], then a [recreateMediaPlayer] that gets no player
    from the engine. *)
Definition recreate_failed : VlcPlayer :=
  after_all (E := env true)
    [ (Initialize 42, idle); (RecreateMediaPlayer, no_player) ]
    (VlcPlayer_new (E := env true) idle).

(** [initialize(42)], [play(url)], then [startRecording("")] while the
    engine plays. *)
Definition recording_to_nowhere : VlcPlayer :=
  after_all (E := env true)
    [ (Initialize 42, idle); (Play url, idle);
      (StartRecording "", streaming 0 libvlc_Playing libvlc_Playing) ]
    (VlcPlayer_new (E := env true) idle).

(** The object of [ready] after a [play(url)] whose copy of the URL
    threw: the engine plays, the error flag is set. *)
Definition faulted : VlcPlayer :=
  snd (fst (play (E := env false) url ready idle)).

(** [initialize(42)], a [startRecording] and a [play(url)], to be run
    with an allocator that fails. *)
Definition fault_run : list (call * world) :=
  [ (Initialize 42, idle);
    (StartRecording "/tmp/out.ts", streaming 0 libvlc_Playing libvlc_Playing);
    (Play url, idle) ].

(** Eleven seconds on the scripted clock. *)
Definition eleven_seconds : time_point := 11 * ticks.


(** JavaScript numbers for the scripted runs: integers and floats kept
    apart; strings are their UTF-8 text. *)
Inductive num : Type :=
| int (z : Z)
| real (f : float).

Definition napi : Addon.Napi :=
  {| Addon.js_number := num;
     Addon.js_string := string;
     Addon.Int64Value := fun n => match n with int z => z | real _ => 0 end;
     Addon.Int32Value := fun n =>
       match n with
       | int z => (z + 2 ^ 31) mod 2 ^ 32 - 2 ^ 31
       | real _ => 0
       end;
     Addon.Number_of_int := int;
     Addon.Number_of_int64 := int;
     Addon.Number_of_float := real;
     Addon.Utf8Value := fun s => s;
     Addon.String_New := fun s => s |}.

(** The session while a recording to [/tmp/out.ts] runs. *)
Definition recording : VlcPlayer :=
  set_recordingPath "/tmp/out.ts" (set_isRecording true session).

(** The engine playing media [3] at position [time_ms], at clock
    [now]. *)
Definition playing_at (now : time_point) (time_ms : Z) : world :=
  {| log := []; clock := now;
     next_instance := Some 1%N; next_player := Some 2%N;
     next_media := Some 3%N; play_result := 0;
     playing := 1; state := libvlc_Playing; media := Some 3%N;
     media_state := libvlc_Playing; time := time_ms; volume := 0;
     stats := None |}.

(** The engine playing, unable to open a further location. *)
Definition busy_no_media : world :=
  {| log := []; clock := 0;
     next_instance := Some 1%N; next_player := Some 2%N;
     next_media := None; play_result := 0;
     playing := 1; state := libvlc_Playing; media := Some 3%N;
     media_state := libvlc_Playing; time := 0; volume := 0;
     stats := None |}.

(** An engine that cannot be created. *)
Definition no_instance : world :=
  {| log := []; clock := 0;
     next_instance := None; next_player := Some 2%N;
     next_media := Some 3%N; play_result := 0;
     playing := 0; state := libvlc_NothingSpecial; media := None;
     media_state := libvlc_NothingSpecial; time := 0; volume := 0;
     stats := None |}.

(** The scripted environment with an allocator of its own. *)
Definition env_with (alloc : world -> bool) : Env :=
  {| World := world;
     ticks_per_second := ticks;
     steady_clock_now := clock;
     Sleep := Sleep (Env := env true);
     string_alloc := alloc;
     libvlc_new := libvlc_new (Env := env true);
     libvlc_release := libvlc_release (Env := env true);
     libvlc_media_player_new := libvlc_media_player_new (Env := env true);
     libvlc_media_player_release :=
       libvlc_media_player_release (Env := env true);
     libvlc_media_player_set_hwnd :=
       libvlc_media_player_set_hwnd (Env := env true);
     libvlc_media_player_is_playing :=
       libvlc_media_player_is_playing (Env := env true);
     libvlc_media_player_stop := libvlc_media_player_stop (Env := env true);
     libvlc_media_player_pause :=
       libvlc_media_player_pause (Env := env true);
     libvlc_media_player_play := libvlc_media_player_play (Env := env true);
     libvlc_media_new_location :=
       libvlc_media_new_location (Env := env true);
     libvlc_media_player_set_media :=
       libvlc_media_player_set_media (Env := env true);
     libvlc_media_release := libvlc_media_release (Env := env true);
     libvlc_audio_set_volume := libvlc_audio_set_volume (Env := env true);
     libvlc_audio_get_volume := libvlc_audio_get_volume (Env := env true);
     libvlc_media_player_get_state :=
       libvlc_media_player_get_state (Env := env true);
     libvlc_media_player_get_media :=
       libvlc_media_player_get_media (Env := env true);
     libvlc_media_get_state := libvlc_media_get_state (Env := env true);
     libvlc_media_player_get_time :=
       libvlc_media_player_get_time (Env := env true);
     libvlc_media_get_stats := libvlc_media_get_stats (Env := env true);
     libvlc_media_add_option := libvlc_media_add_option (Env := env true)
  |}.

(** An allocator that is exhausted once an option has been added to a
    media. *)
Definition exhausted_by_option (w : world) : bool :=
  match log w with
  | c_add_option _ _ :: _ => false
  | _ => true
  end.

(** Three calls that come between the start and the stop of a
    recording. *)
Definition interlude : list (call * world) :=
  [ (Stop, idle); (Play "udp://239.0.0.2:1234", idle);
    (RecreateMediaPlayer, idle) ].

(** Calls from JavaScript on the scripted engine: [initialize(42)]
    against an engine that cannot be created, then [stop()]. *)
Definition failed_start
  : list (Addon.napi_function (E := env true) (N := napi)
          * list (Addon.napi_value (N := napi)) * world) :=
  [ (Addon.Initialize, [Addon.Number (N := napi) (int 42)], no_instance);
    (Addon.Stop, [], idle) ].

End Script.

(** ** The properties as the specification words them *)

(** [clamp(v, lo, hi)]. *)
Definition clamp (v lo hi : Z) : Z := Z.max lo (Z.min v hi).

(** The Session invariant: the player handle is non-null iff
    [initialized], and an engine handle exists whenever a player handle
    does. *)
Definition session_invariant (s : VlcPlayer) : Prop :=
  (mediaPlayer s <> None <-> initialized s = true) /\
  (mediaPlayer s <> None -> vlcInstance s <> None).

(** The RecordingSession invariant: the destination path is non-empty
    iff the active flag is set. *)
Definition recording_invariant (s : VlcPlayer) : Prop :=
  recordingPath s <> "" <-> isRecording s = true.

(** An all-zero snapshot. *)
Definition all_zero (st : StreamStats) : Prop :=
  inputBitrate st = S754_zero false /\
  demuxBitrate st = S754_zero false /\
  lostBuffers st = 0 /\ displayedPictures st = 0 /\ lostPictures st = 0.

(** ** What the code maintains *)

(** The handles after any sequence of calls: a player handle only in an
    initialized object, an engine handle exactly in an initialized
    object. *)
Definition handles_invariant (s : VlcPlayer) : Prop :=
  (mediaPlayer s <> None -> initialized s = true) /\
  (initialized s = true <-> vlcInstance s <> None) /\
  (mediaPlayer s <> None -> vlcInstance s <> None).

(** No path is kept while no recording is active. *)
Definition idle_recording_has_no_path (s : VlcPlayer) : Prop :=
  isRecording s = false -> recordingPath s = "".

(** The calls of a sequence that start a recording name a file. *)
Definition names_a_file {W : Type} (cw : call * W) : Prop :=
  match fst cw with
  | StartRecording filePath => filePath <> ""
  | _ => True
  end.

(** ** Further notions used below *)

Definition is_cleanup (c : call) : bool :=
  match c with
  | Cleanup => true
  | _ => false
  end.

Definition is_recording_call (c : call) : bool :=
  match c with
  | StartRecording _ | StopRecording => true
  | _ => false
  end.


(** The strings [getState] can return. *)
Definition state_names : list string :=
  [ "playing"; "paused"; "stopped"; "buffering"; "error" ].

(** A call from JavaScript: one of the exported functions, with its
    arguments and the world it meets. *)
Definition exported {E : Env} {N : Addon.Napi}
    (c : Addon.napi_function * list Addon.napi_value * World) : Prop :=
  exists name, In (name, fst (fst c)) Addon.exports.

(** ** Properties of the operations *)

Section Properties.
Context {E : Env}.

(** The guard lets a call through exactly when the object is
    initialized and holds a player handle. *)
Lemma live_iff (s : VlcPlayer) (mp : libvlc_media_player_t) :
  live s = Some mp <-> initialized s = true /\ mediaPlayer s = Some mp.
Proof.
  unfold live. destruct (initialized s); split.
  - intros H; split; [reflexivity | exact H].
  - intros [_ H]; exact H.
  - discriminate.
  - intros [H _]; discriminate H.
Qed.

Lemma live_intro (s : VlcPlayer) (mp : libvlc_media_player_t) :
  initialized s = true -> mediaPlayer s = Some mp -> live s = Some mp.
Proof. intros Hi Hp. apply live_iff. split; assumption. Qed.

Lemma not_live_iff (s : VlcPlayer) :
  live s = None <-> initialized s = false \/ mediaPlayer s = None.
Proof.
  unfold live. destruct (initialized s); split; intros H.
  - right; exact H.
  - destruct H as [H | H]; [discriminate H | exact H].
  - left; reflexivity.
  - reflexivity.
Qed.

(** *** Recovery *)

(** C4.  [recreateMediaPlayer] fails and changes nothing when there is
    no engine instance, as in a freshly constructed object.  With an
    engine instance [inst] it releases the old player if there is one
    and asks the engine for a new player of [inst]: when the engine
    returns [mp], [mp] becomes the player, the stored window handle is
    attached to it, the error flag is cleared, whatever it was, and the
    call succeeds; when the engine returns none, the call fails, the
    engine instance is kept and not released, and a later call that gets
    a player succeeds. *)
Theorem recreateMediaPlayer_spec (s : VlcPlayer) (w : World) :
  (vlcInstance s = None -> recreateMediaPlayer s w = (false, s, w)) /\
  (forall w0,
      recreateMediaPlayer (VlcPlayer_new w0) w
      = (false, VlcPlayer_new w0, w)) /\
  (forall inst, vlcInstance s = Some inst ->
     let w1 := match mediaPlayer s with
               | Some old => libvlc_media_player_release old w
               | None => w
               end in
     let w2 := snd (libvlc_media_player_new inst w1) in
     let s' := snd (fst (recreateMediaPlayer s w)) in
     match fst (libvlc_media_player_new inst w1) with
     | Some mp =>
         recreateMediaPlayer s w
         = (true,
            set_isInErrorState false (set_mediaPlayer (Some mp) s),
            libvlc_media_player_set_hwnd mp (hwnd s) w2) /\
         mediaPlayer s' = Some mp /\
         isInErrorState s' = false /\
         isInError s' = false /\
         hwnd s' = hwnd s /\
         vlcInstance s' = Some inst /\
         initialized s' = initialized s
     | None =>
         recreateMediaPlayer s w = (false, set_mediaPlayer None s, w2) /\
         mediaPlayer s' = None /\
         isInErrorState s' = isInErrorState s /\
         vlcInstance s' = Some inst /\
         (forall w', fst (libvlc_media_player_new inst w') <> None ->
            fst (fst (recreateMediaPlayer s' w')) = true /\
            isInErrorState (snd (fst (recreateMediaPlayer s' w'))) = false)
     end).
Proof.
  split; [| split].
  - intros H. unfold recreateMediaPlayer. rewrite H. reflexivity.
  - intros w0. reflexivity.
  - intros inst Hinst w1 w2 s'.
    assert (Hrun : recreateMediaPlayer s w
                   = match fst (libvlc_media_player_new inst w1) with
                     | Some mp =>
                         (true,
                          set_isInErrorState false
                            (set_mediaPlayer (Some mp) s),
                          libvlc_media_player_set_hwnd mp (hwnd s) w2)
                     | None => (false, set_mediaPlayer None s, w2)
                     end).
    { unfold recreateMediaPlayer, w2, w1. rewrite Hinst.
      destruct (mediaPlayer s) as [old |] eqn:Hold;
        destruct (libvlc_media_player_new inst _) as [[mp |] w'];
        reflexivity. }
    subst s'.
    destruct (fst (libvlc_media_player_new inst w1)) as [mp |] eqn:Hnew.
    + rewrite Hrun. cbn [fst snd]. unfold isInError.
      cbn [mediaPlayer isInErrorState hwnd vlcInstance initialized
             set_isInErrorState set_mediaPlayer].
      repeat split. exact Hinst.
    + rewrite Hrun. cbn [fst snd].
      cbn [mediaPlayer isInErrorState vlcInstance set_mediaPlayer].
      split; [reflexivity |]. split; [reflexivity |].
      split; [reflexivity |]. split; [exact Hinst |].
      intros w' Hw'. unfold recreateMediaPlayer.
      cbn [vlcInstance mediaPlayer set_mediaPlayer]. rewrite Hinst.
      destruct (libvlc_media_player_new inst w') as [[mp |] w''].
      * split; reflexivity.
      * exfalso. apply Hw'. reflexivity.
Qed.

(** *** Playback control *)

(** C10.  On an initialized object holding a player handle, [resume]
    returns [true] whatever the engine answers, also when the engine
    is not playing and its play request returns a failure code; the
    object is left as it was, so the failure is not recorded either. *)
Theorem resume_always_succeeds (s : VlcPlayer) (w : World)
    (mp : libvlc_media_player_t) :
  initialized s = true -> mediaPlayer s = Some mp ->
  fst (fst (resume s w)) = true /\
  snd (fst (resume s w)) = s /\
  (libvlc_media_player_is_playing mp w = 0 ->
   fst (libvlc_media_player_play mp w) <> 0 ->
   resume s w = (true, s, snd (libvlc_media_player_play mp w))).
Proof.
  intros Hi Hp. unfold resume. rewrite (live_intro s mp Hi Hp).
  cbn [fst snd]. repeat split.
  intros Hnot _. rewrite Hnot. reflexivity.
Qed.

(** [clampedVolume] is the clamp to [0, 100]. *)
Lemma clampedVolume_clamp (v : Z) : clampedVolume v = clamp v 0 100.
Proof.
  unfold clampedVolume, clamp.
  destruct (Z.ltb_spec v 0); [lia |].
  destruct (v >? 100) eqn:Hgt; [apply Z.gtb_lt in Hgt; lia |].
  assert (v <= 100).
  { destruct (Z.le_gt_cases v 100) as [Hle | Hlt]; [exact Hle |].
    apply Z.gtb_lt in Hlt. congruence. }
  lia.
Qed.

Lemma clampedVolume_range (v : Z) : 0 <= clampedVolume v <= 100.
Proof. rewrite clampedVolume_clamp. unfold clamp. lia. Qed.

(** C9.  On an initialized object holding a player handle,
    [setVolume v] returns [true] for every integer [v], leaves the
    object as it was and makes one engine call, setting the volume to
    [clamp v 0 100].  With an engine that reports the volume it was
    last set to, [getVolume] then returns [clamp v 0 100]. *)
Theorem setVolume_then_getVolume (v : Z) (s : VlcPlayer) (w : World)
    (mp : libvlc_media_player_t) :
  initialized s = true -> mediaPlayer s = Some mp ->
  setVolume v s w
  = (true, s, snd (libvlc_audio_set_volume mp (clamp v 0 100) w)) /\
  ((forall p x w0, 0 <= x <= 100 ->
      libvlc_audio_get_volume p (snd (libvlc_audio_set_volume p x w0)) = x) ->
   getVolume (snd (fst (setVolume v s w))) (snd (setVolume v s w))
   = clamp v 0 100).
Proof.
  intros Hi Hp.
  assert (Hset : setVolume v s w
                 = (true, s,
                    snd (libvlc_audio_set_volume mp (clamp v 0 100) w))).
  { unfold setVolume. rewrite (live_intro s mp Hi Hp).
    rewrite clampedVolume_clamp. reflexivity. }
  split; [exact Hset |].
  intros Hengine. rewrite Hset. cbn [fst snd]. unfold getVolume.
  rewrite (live_intro s mp Hi Hp). apply Hengine.
  rewrite <- clampedVolume_clamp. apply clampedVolume_range.
Qed.

(** *** Freeze detection *)

Lemma libvlc_state_eqb_eq (a b : libvlc_state_t) :
  libvlc_state_eqb a b = true <-> a = b.
Proof. destruct a, b; cbn; split; congruence. Qed.

Lemma libvlc_state_eqb_neq (a b : libvlc_state_t) :
  libvlc_state_eqb a b = false <-> a <> b.
Proof. destruct a, b; cbn; split; congruence. Qed.

(** With a clock that has not run backwards, the whole seconds elapsed
    reach [n] exactly when the elapsed ticks reach [n] seconds. *)
Lemma elapsed_seconds_ge (now last n : Z) :
  0 < ticks_per_second -> last <= now ->
  (elapsed_seconds now last >=? n) = true
  <-> n * ticks_per_second <= now - last.
Proof.
  intros Hpos Hmono. unfold elapsed_seconds.
  rewrite Z.quot_div_nonneg by lia.
  rewrite Z.geb_le. split; intros H.
  - apply Z.le_trans with ((now - last) / ticks_per_second * ticks_per_second).
    + apply Z.mul_le_mono_nonneg_r; lia.
    + rewrite Z.mul_comm. apply Z.mul_div_le. exact Hpos.
  - apply Z.div_le_lower_bound; lia.
Qed.

(** With monitoring off, or without a live player, the answer is
    [false] and the engine is not consulted. *)
Lemma isStreamFrozen_disabled (th : Z) (s : VlcPlayer) (w : World) :
  freezeDetectionEnabled s = false -> isStreamFrozen th s w = (false, w).
Proof.
  intros H. unfold isStreamFrozen. rewrite H.
  destruct (live s); reflexivity.
Qed.

(** The answer of [isStreamFrozen] once the guard is passed. *)
Lemma isStreamFrozen_enabled (th : Z) (s : VlcPlayer) (w : World)
    (mp : libvlc_media_player_t) :
  initialized s = true -> mediaPlayer s = Some mp ->
  freezeDetectionEnabled s = true ->
  fst (isStreamFrozen th s w)
  = match libvlc_media_player_get_state mp w with
    | libvlc_Error | libvlc_Ended => true
    | libvlc_Playing =>
        media_in_error mp w
        || (elapsed_seconds (steady_clock_now w) (lastFrameTime s) >=? th)
    | _ => false
    end.
Proof.
  intros Hi Hp Hen. unfold isStreamFrozen, media_in_error.
  rewrite (live_intro s mp Hi Hp), Hen. cbn [negb].
  destruct (libvlc_media_player_get_state mp w); cbn; try reflexivity.
  destruct (libvlc_media_player_get_media mp w) as [[m |] w'].
  - destruct (libvlc_state_eqb (libvlc_media_get_state m w') libvlc_Error);
      [reflexivity |].
    destruct (_ >=? th); reflexivity.
  - cbn. destruct (_ >=? th); reflexivity.
Qed.

(** C1, as the code has it.  With monitoring disabled [isStreamFrozen]
    returns [false] whatever the engine state and the elapsed time.
    With monitoring enabled on an initialized object holding a player
    handle: it returns [true] when the engine state is [Error] or
    [Ended]; [false] in every other state that is not [Playing]; and in
    state [Playing] it returns [true] iff the current media is in state
    [Error] or the time since the last observation is at least the
    threshold, in seconds. *)
Theorem isStreamFrozen_spec (th : Z) (s : VlcPlayer) (w : World) :
  (freezeDetectionEnabled s = false -> fst (isStreamFrozen th s w) = false) /\
  (forall mp,
     initialized s = true -> mediaPlayer s = Some mp ->
     freezeDetectionEnabled s = true ->
     let state := libvlc_media_player_get_state mp w in
     (state = libvlc_Error \/ state = libvlc_Ended ->
      fst (isStreamFrozen th s w) = true) /\
     (state <> libvlc_Error -> state <> libvlc_Ended ->
      state <> libvlc_Playing ->
      fst (isStreamFrozen th s w) = false) /\
     (state = libvlc_Playing ->
      0 < ticks_per_second -> lastFrameTime s <= steady_clock_now w ->
      (fst (isStreamFrozen th s w) = true
       <-> media_in_error mp w = true
           \/ th * ticks_per_second
              <= steady_clock_now w - lastFrameTime s))).
Proof.
  split.
  - intros H. rewrite (isStreamFrozen_disabled th s w H). reflexivity.
  - intros mp Hi Hp Hen state.
    rewrite (isStreamFrozen_enabled th s w mp Hi Hp Hen). fold state.
    split; [| split].
    + intros [H | H]; rewrite H; reflexivity.
    + intros H1 H2 H3. destruct state; congruence.
    + intros H Hpos Hmono. rewrite H. rewrite orb_true_iff.
      rewrite (elapsed_seconds_ge _ _ th Hpos Hmono). reflexivity.
Qed.

(** C8.  On an initialized object holding a player handle, [stop]
    asks the engine to stop, disables monitoring, clears the current
    URL and the error flag and returns [true].  Afterwards
    [getCurrentUrl] returns the empty string and [isStreamFrozen]
    returns [false] for every threshold and whatever the engine
    reports. *)
Theorem stop_spec (s : VlcPlayer) (w : World) (mp : libvlc_media_player_t) :
  initialized s = true -> mediaPlayer s = Some mp ->
  stop s w
  = (true,
     set_isInErrorState false
       (set_currentUrl "" (set_freezeDetectionEnabled false s)),
     libvlc_media_player_stop mp w) /\
  let s' := snd (fst (stop s w)) in
  freezeDetectionEnabled s' = false /\
  currentUrl s' = "" /\
  isInErrorState s' = false /\
  getCurrentUrl s' = "" /\
  (forall th w', fst (isStreamFrozen th s' w') = false).
Proof.
  intros Hi Hp.
  assert (Hstop : stop s w
                  = (true,
                     set_isInErrorState false
                       (set_currentUrl ""
                          (set_freezeDetectionEnabled false s)),
                     libvlc_media_player_stop mp w)).
  { unfold stop. rewrite (live_intro s mp Hi Hp). reflexivity. }
  split; [exact Hstop |].
  rewrite Hstop. cbn [fst snd]. repeat split.
  intros th w'. rewrite isStreamFrozen_disabled; reflexivity.
Qed.

(** *** Loading a source *)

(** [play] on success: the URL is recorded, monitoring is enabled with
    position [0] and the current time, the error flag is cleared. *)
Lemma play_success (url : string) (s : VlcPlayer) (w : World)
    (mp : libvlc_media_player_t) :
  initialized s = true -> mediaPlayer s = Some mp ->
  fst (fst (play url s w)) = true ->
  let s' := snd (fst (play url s w)) in
  currentUrl s' = url /\
  freezeDetectionEnabled s' = true /\
  lastFrameCount s' = 0 /\
  lastFrameTime s' = steady_clock_now (snd (play url s w)) /\
  isInErrorState s' = false.
Proof.
  intros Hi Hp. unfold play, play_try. rewrite (live_intro s mp Hi Hp).
  destruct (libvlc_media_new_location _ _ _) as [[m |] w1];
    [| cbn; discriminate].
  destruct (libvlc_media_player_play _ _) as [result w2].
  destruct (result =? 0); [| cbn; discriminate].
  destruct (string_alloc w2); [| cbn; discriminate].
  cbn. intros _. repeat split.
Qed.

(** [play] when the copy of the URL throws: the handler sets the error
    flag and the call returns [false]. *)
Lemma play_fault (url : string) (s : VlcPlayer) (w : World)
    (mp : libvlc_media_player_t) :
  initialized s = true -> mediaPlayer s = Some mp ->
  fst (fst (play_try url mp s w)) = Thrown ->
  fst (fst (play url s w)) = false /\
  isInErrorState (snd (fst (play url s w))) = true.
Proof.
  intros Hi Hp. unfold play. rewrite (live_intro s mp Hi Hp).
  destruct (play_try url mp s w) as [[[b |] s'] w']; cbn.
  - discriminate.
  - intros _. split; reflexivity.
Qed.

(** [play] when the engine refuses the location or the play request:
    the call returns [false] and the object, error flag included, is as
    it was. *)
Lemma play_engine_failure (url : string) (s : VlcPlayer) (w : World)
    (mp : libvlc_media_player_t) :
  initialized s = true -> mediaPlayer s = Some mp ->
  fst (fst (play_try url mp s w)) = Returned false ->
  fst (fst (play url s w)) = false /\ snd (fst (play url s w)) = s.
Proof.
  intros Hi Hp. unfold play, play_try. rewrite (live_intro s mp Hi Hp).
  destruct (libvlc_media_new_location _ _ _) as [[m |] w1];
    [| cbn; intros _; split; reflexivity].
  destruct (libvlc_media_player_play _ _) as [result w2].
  destruct (result =? 0); [| cbn; intros _; split; reflexivity].
  destruct (string_alloc w2); cbn; discriminate.
Qed.

(** *** Statistics *)

(** [getStats] when the engine reports statistics: they are returned
    and cached. *)
Lemma getStats_success (s : VlcPlayer) (w : World)
    (mp : libvlc_media_player_t) (m : libvlc_media_t)
    (vlcStats : libvlc_media_stats_t) :
  initialized s = true -> mediaPlayer s = Some mp ->
  fst (libvlc_media_player_get_media mp w) = Some m ->
  libvlc_media_get_stats m (snd (libvlc_media_player_get_media mp w))
  = Some vlcStats ->
  let stats :=
    {| inputBitrate := f_input_bitrate vlcStats;
       demuxBitrate := f_demux_bitrate vlcStats;
       lostBuffers := i_lost_abuffers vlcStats;
       displayedPictures := i_displayed_pictures vlcStats;
       lostPictures := i_lost_pictures vlcStats |} in
  fst (fst (getStats s w)) = stats /\
  lastStats (snd (fst (getStats s w))) = stats.
Proof.
  intros Hi Hp Hm Hs. unfold getStats. rewrite (live_intro s mp Hi Hp).
  destruct (libvlc_media_player_get_media mp w) as [media w1].
  cbn [fst snd] in Hm, Hs. subst media. rewrite Hs. cbn. split; reflexivity.
Qed.

(** [getStats] when there is no current media or the engine reports no
    statistics: the default-constructed snapshot is returned, whatever
    the cache holds, and the cache is left as it was. *)
Lemma getStats_failure (s : VlcPlayer) (w : World)
    (mp : libvlc_media_player_t) :
  initialized s = true -> mediaPlayer s = Some mp ->
  match libvlc_media_player_get_media mp w with
  | (Some m, w') => libvlc_media_get_stats m w' = None
  | (None, _) => True
  end ->
  fst (fst (getStats s w)) = StreamStats_default /\
  snd (fst (getStats s w)) = s.
Proof.
  intros Hi Hp. unfold getStats. rewrite (live_intro s mp Hi Hp).
  destruct (libvlc_media_player_get_media mp w) as [[m |] w1].
  - intros Hs. rewrite Hs. cbn. split; reflexivity.
  - intros _. cbn. split; reflexivity.
Qed.

(** *** Recording *)

(** C7.  [startRecording] returns [false] and changes nothing when the
    object is not initialized or holds no player, when a recording is
    active, and when the player has no current media.  On an
    initialized object with a current media [m] and no active
    recording it adds the stream-output option for [filePath] to [m]
    and returns [true] (the two string allocations succeeding);
    afterwards [getIsRecording] returns [true], [getRecordingPath]
    returns [filePath], and every further [startRecording] returns
    [false] and changes nothing. *)
Theorem startRecording_spec (filePath : string) (s : VlcPlayer) (w : World) :
  (initialized s = false \/ mediaPlayer s = None ->
   startRecording filePath s w = (false, s, w)) /\
  (isRecording s = true -> startRecording filePath s w = (false, s, w)) /\
  (forall mp,
     initialized s = true -> mediaPlayer s = Some mp ->
     fst (libvlc_media_player_get_media mp w) = None ->
     fst (fst (startRecording filePath s w)) = false /\
     snd (fst (startRecording filePath s w)) = s) /\
  (forall mp m,
     initialized s = true -> mediaPlayer s = Some mp ->
     isRecording s = false ->
     fst (libvlc_media_player_get_media mp w) = Some m ->
     let w' := libvlc_media_add_option m (sout_of filePath)
                 (snd (libvlc_media_player_get_media mp w)) in
     string_alloc w = true -> string_alloc w' = true ->
     let s' := snd (fst (startRecording filePath s w)) in
     startRecording filePath s w
     = (true, set_recordingPath filePath (set_isRecording true s), w') /\
     getIsRecording s' = true /\
     getRecordingPath s' = filePath /\
     (forall again w2, startRecording again s' w2 = (false, s', w2))).
Proof.
  assert (Hbusy : forall p s0 w0,
             isRecording s0 = true ->
             startRecording p s0 w0 = (false, s0, w0)).
  { intros p s0 w0 H. unfold startRecording. rewrite H.
    destruct (live s0); reflexivity. }
  split; [| split; [| split]].
  - intros H. apply not_live_iff in H. unfold startRecording.
    rewrite H. reflexivity.
  - apply Hbusy.
  - intros mp Hi Hp Hm. unfold startRecording, startRecording_try.
    rewrite (live_intro s mp Hi Hp).
    destruct (isRecording s); [split; reflexivity |].
    destruct (string_alloc w); [| split; reflexivity].
    destruct (libvlc_media_player_get_media mp w) as [media w1].
    cbn [fst] in Hm. subst media. split; reflexivity.
  - intros mp m Hi Hp Hrec Hm w' Ha1 Ha2 s'.
    assert (Hrun : startRecording filePath s w
                   = (true,
                      set_recordingPath filePath (set_isRecording true s),
                      w')).
    { unfold startRecording, startRecording_try.
      rewrite (live_intro s mp Hi Hp), Hrec, Ha1.
      subst w'. revert Ha2.
      destruct (libvlc_media_player_get_media mp w) as [media w1].
      cbn [fst snd] in *. subst media. intros Ha2. rewrite Ha2.
      reflexivity. }
    subst s'. rewrite Hrun. cbn [fst snd]. repeat split.
    intros again w2. apply Hbusy. reflexivity.
Qed.

(** *** Invariants over sequences of calls *)

(** Case analysis on the innermost scrutinee the goal still holds. *)
Ltac break_matches :=
  repeat (match goal with
          | |- context [match ?x with _ => _ end] =>
              lazymatch x with
              | context [match _ with _ => _ end] => fail
              | _ => destruct x eqn:?
              end
          end; cbn [fst snd]).

Ltac run_call c :=
  destruct c; cbn [after];
  unfold initialize, play, play_try, stop, pause, resume, setVolume,
    updateFrameTime, recreateMediaPlayer, getStats, startRecording,
    startRecording_try, stopRecording, cleanup, live;
  break_matches; cbn.

Lemma handles_invariant_new (w : World) :
  handles_invariant (VlcPlayer_new w).
Proof. unfold handles_invariant. cbn. intuition congruence. Qed.

Lemma handles_invariant_after (c : call) (s : VlcPlayer) (w : World) :
  handles_invariant s -> handles_invariant (after c s w).
Proof.
  unfold handles_invariant. intros H.
  run_call c; cbn in *; intuition congruence.
Qed.

(** C5, as the code has it.  After any sequence of calls on a fresh
    object: a player handle is present only if [initialized] is set,
    [initialized] is set iff an engine handle is present, and an engine
    handle is present whenever a player handle is. *)
Theorem handles_invariant_always (w0 : World) (cs : list (call * World)) :
  handles_invariant (after_all cs (VlcPlayer_new w0)).
Proof.
  generalize (handles_invariant_new w0).
  generalize (VlcPlayer_new w0) as s.
  induction cs as [| [c w] cs IH]; intros s Hs; cbn.
  - exact Hs.
  - apply IH. apply handles_invariant_after. exact Hs.
Qed.

Lemma idle_recording_after (c : call) (s : VlcPlayer) (w : World) :
  idle_recording_has_no_path s -> idle_recording_has_no_path (after c s w).
Proof.
  unfold idle_recording_has_no_path. intros H.
  run_call c; cbn in *; intuition congruence.
Qed.

Lemma recording_invariant_after (c : call) (s : VlcPlayer) (w : World) :
  (forall w', string_alloc w' = true) ->
  names_a_file (c, w) ->
  recording_invariant s -> recording_invariant (after c s w).
Proof.
  unfold recording_invariant, names_a_file. intros Halloc Hname H.
  destruct c; cbn [after fst] in *;
    unfold initialize, play, play_try, stop, pause, resume, setVolume,
      updateFrameTime, recreateMediaPlayer, getStats, startRecording,
      startRecording_try, stopRecording, cleanup, live;
    rewrite ?Halloc; break_matches; cbn in *; intuition congruence.
Qed.

(** C6, as the code has it.  After any sequence of calls on a fresh
    object, no path is stored while no recording is active.  When no
    string allocation fails and every [startRecording] of the sequence
    is given a non-empty path, the stored path is non-empty iff a
    recording is active. *)
Theorem recording_invariant_amended (w0 : World)
    (cs : list (call * World)) :
  let s := after_all cs (VlcPlayer_new w0) in
  idle_recording_has_no_path s /\
  ((forall w, string_alloc w = true) ->
   Forall names_a_file cs ->
   recording_invariant s).
Proof.
  cbn zeta. split.
  - assert (H0 : idle_recording_has_no_path (VlcPlayer_new w0))
      by (intros _; reflexivity).
    revert H0. generalize (VlcPlayer_new w0) as s.
    induction cs as [| [c w] cs IH]; intros s Hs; cbn.
    + exact Hs.
    + apply IH. apply idle_recording_after. exact Hs.
  - intros Halloc Hnames.
    assert (H0 : recording_invariant (VlcPlayer_new w0)).
    { unfold recording_invariant. cbn. split; [congruence | discriminate]. }
    revert H0. generalize (VlcPlayer_new w0) as s.
    induction Hnames as [| [c w] cs Hc Hcs IH]; intros s Hs; cbn.
    + exact Hs.
    + apply IH. apply recording_invariant_after; assumption.
Qed.

(** *** Initialization and teardown *)

(** X1.  [initialize] returns exactly the value of [initialized] it
    leaves behind.  When it returns [false] the object holds no engine
    instance and the window handle passed in has been stored all the
    same; when the engine instance was created and the player was not,
    the instance is released before returning. *)
Theorem initialize_result_is_flag (h : HWND) (s : VlcPlayer) (w : World) :
  let r := initialize h s w in
  fst (fst r) = initialized (snd (fst r)) /\
  (fst (fst r) = false ->
   vlcInstance (snd (fst r)) = None /\ hwnd (snd (fst r)) = h) /\
  (forall inst,
     initialized s = false ->
     fst (libvlc_new vlc_args w) = Some inst ->
     fst (libvlc_media_player_new inst (snd (libvlc_new vlc_args w))) = None ->
     snd r
     = libvlc_release inst
         (snd (libvlc_media_player_new inst (snd (libvlc_new vlc_args w))))).
Proof.
  cbv zeta. unfold initialize.
  destruct (initialized s) eqn:Hi.
  - cbn. split; [symmetry; exact Hi | split].
    + discriminate.
    + intros inst Hf. discriminate Hf.
  - destruct (libvlc_new vlc_args w) as [[inst |] w1]; cbn [fst snd].
    + destruct (libvlc_media_player_new inst w1) as [[mp |] w2] eqn:Hnew;
        cbn; (split; [first [reflexivity | symmetry; exact Hi] | split]).
      * discriminate.
      * intros inst' _ Hinst. injection Hinst as <-.
        rewrite Hnew. cbn. discriminate.
      * intros _. split; reflexivity.
      * intros inst' _ Hinst _. injection Hinst as <-.
        rewrite Hnew. reflexivity.
    + cbn. split; [symmetry; exact Hi | split].
      * intros _. split; reflexivity.
      * intros inst' _ Hinst. discriminate Hinst.
Qed.

Lemma permanent_after (c : call) (s : VlcPlayer) (w : World) :
  is_cleanup c = false -> initialized s = true ->
  initialized (after c s w) = true /\
  hwnd (after c s w) = hwnd s /\
  vlcInstance (after c s w) = vlcInstance s.
Proof.
  intros Hc Hi. destruct c; try discriminate Hc; cbn [after];
    unfold initialize, play, play_try, stop, pause, resume, setVolume,
      updateFrameTime, recreateMediaPlayer, getStats, startRecording,
      startRecording_try, stopRecording, live;
    rewrite ?Hi; break_matches; cbn; auto.
Qed.

(** X2.  No call of the class other than [cleanup] takes [initialized]
    back: after any sequence of such calls on an initialized object the
    flag is still set and the engine instance and the stored window
    handle are the same, so a further [initialize] with any handle
    returns [true] without touching the object or the engine. *)
Theorem initialized_is_permanent (cs : list (call * World))
    (s : VlcPlayer) (h : HWND) (w : World) :
  initialized s = true ->
  Forall (fun cw => is_cleanup (fst cw) = false) cs ->
  initialized (after_all cs s) = true /\
  hwnd (after_all cs s) = hwnd s /\
  vlcInstance (after_all cs s) = vlcInstance s /\
  initialize h (after_all cs s) w = (true, after_all cs s, w).
Proof.
  intros Hi Hcs.
  assert (H : initialized (after_all cs s) = true /\
              hwnd (after_all cs s) = hwnd s /\
              vlcInstance (after_all cs s) = vlcInstance s).
  { revert s Hi. induction Hcs as [| [c w1] cs Hc _ IH]; intros s Hi.
    - cbn. auto.
    - cbn [after_all]. cbn [fst] in Hc.
      destruct (permanent_after c s w1 Hc Hi) as (Hi1 & Hh1 & Hv1).
      destruct (IH _ Hi1) as (Hi2 & Hh2 & Hv2).
      repeat split; congruence. }
  destruct H as (H1 & H2 & H3). repeat split; try assumption.
  unfold initialize. rewrite H1. reflexivity.
Qed.

(** X3.  On an object that is not initialized or holds no player handle
    every guarded member function returns its failure value, leaves the
    object as it is and makes no engine call: [false] from [play],
    [stop], [pause], [resume], [setVolume], [isPlaying], [isStreamFrozen]
    and [startRecording], [0] from [getVolume], ["stopped"] from
    [getState] and the all-zero snapshot from [getStats]. *)
Theorem not_live_defaults (s : VlcPlayer) (w : World) :
  initialized s = false \/ mediaPlayer s = None ->
  (forall url, play url s w = (false, s, w)) /\
  stop s w = (false, s, w) /\
  pause s w = (false, s, w) /\
  resume s w = (false, s, w) /\
  (forall v, setVolume v s w = (false, s, w)) /\
  getVolume s w = 0 /\
  isPlaying s w = false /\
  getState s w = "stopped" /\
  (forall th, isStreamFrozen th s w = (false, w)) /\
  getStats s w = (StreamStats_default, s, w) /\
  (forall filePath, startRecording filePath s w = (false, s, w)).
Proof.
  intros H. apply not_live_iff in H.
  unfold play, stop, pause, resume, setVolume, getVolume, isPlaying,
    getState, isStreamFrozen, getStats, startRecording.
  rewrite H. repeat split.
Qed.

(** X4.  [cleanup] leaves an object without handles and with
    [initialized] cleared, touching no other field, and a second
    [cleanup] changes nothing and makes no engine call.  The player is
    stopped and released before the engine instance is released. *)
Theorem cleanup_spec (s : VlcPlayer) (w : World) :
  let s' := fst (cleanup s w) in
  s' = set_initialized false (set_vlcInstance None (set_mediaPlayer None s)) /\
  live s' = None /\
  (forall w', cleanup s' w' = (s', w')) /\
  (forall mp inst,
     mediaPlayer s = Some mp -> vlcInstance s = Some inst ->
     snd (cleanup s w)
     = libvlc_release inst
         (libvlc_media_player_release mp (libvlc_media_player_stop mp w))).
Proof.
  cbv zeta.
  assert (Hs : fst (cleanup s w)
               = set_initialized false
                   (set_vlcInstance None (set_mediaPlayer None s))).
  { unfold cleanup. destruct s as [vi mp]. cbn.
    destruct mp, vi; reflexivity. }
  rewrite Hs. repeat split.
  intros mp inst Hmp Hinst. unfold cleanup. rewrite Hmp. cbn.
  rewrite Hinst. reflexivity.
Qed.

(** *** Observing the position *)

(** X5.  [updateFrameTime] writes no field but [lastFrameTime] and
    [lastFrameCount].  When it changes the object, the position it
    stored is positive and differs from the one held before, and the
    time it stored is the current time. *)
Theorem updateFrameTime_frame (s : VlcPlayer) (w : World) :
  let s' := updateFrameTime s w in
  s' = set_lastFrameCount (lastFrameCount s')
         (set_lastFrameTime (lastFrameTime s') s) /\
  (s' <> s ->
   0 < lastFrameCount s' /\
   lastFrameCount s' <> lastFrameCount s /\
   lastFrameTime s' = steady_clock_now w).
Proof.
  cbv zeta. unfold updateFrameTime. break_matches;
    (split; [destruct s; reflexivity |]);
    try (intros H; exfalso; apply H; reflexivity).
  intros _. cbn.
  match goal with
  | Hc : (negb (_ =? _) && (_ >? 0))%bool = true |- _ =>
      apply andb_true_iff in Hc; destruct Hc as [H1 H2];
      apply negb_true_iff in H1; apply Z.eqb_neq in H1;
      apply Z.gtb_lt in H2
  end.
  auto.
Qed.

Lemma lastFrameCount_after (c : call) (s : VlcPlayer) (w : World) :
  0 <= lastFrameCount s -> 0 <= lastFrameCount (after c s w).
Proof.
  intros H. run_call c; cbn; first [assumption | lia].
Qed.

(** X6.  The stored position is never negative: it is [0] in a fresh
    object and after a successful [play], and [updateFrameTime] stores
    positive positions only. *)
Theorem lastFrameCount_nonnegative (w0 : World) (cs : list (call * World)) :
  0 <= lastFrameCount (after_all cs (VlcPlayer_new w0)).
Proof.
  assert (H0 : 0 <= lastFrameCount (VlcPlayer_new w0)) by (cbn; lia).
  revert H0. generalize (VlcPlayer_new w0) as s.
  induction cs as [| [c w] cs IH]; intros s Hs; cbn.
  - exact Hs.
  - apply IH. apply lastFrameCount_after. exact Hs.
Qed.

(** X7.  An observation that sees the position move restarts the freeze
    timer: when the engine is playing at a positive position other than
    the stored one, [isStreamFrozen] asked at once after
    [updateFrameTime] returns [false] for every positive threshold,
    provided the engine state is [Playing] and the current media is not
    in error. *)
Theorem observation_restarts_timer (th : Z) (s : VlcPlayer) (w : World)
    (mp : libvlc_media_player_t) :
  initialized s = true -> mediaPlayer s = Some mp ->
  freezeDetectionEnabled s = true ->
  libvlc_media_player_is_playing mp w <> 0 ->
  0 < libvlc_media_player_get_time mp w ->
  libvlc_media_player_get_time mp w <> lastFrameCount s ->
  libvlc_media_player_get_state mp w = libvlc_Playing ->
  media_in_error mp w = false ->
  0 < th ->
  lastFrameCount (updateFrameTime s w) = libvlc_media_player_get_time mp w /\
  fst (isStreamFrozen th (updateFrameTime s w) w) = false.
Proof.
  intros Hi Hp Hen Hplay Hpos Hneq Hstate Herr Hth.
  assert (Hupd : updateFrameTime s w
                 = set_lastFrameCount (libvlc_media_player_get_time mp w)
                     (set_lastFrameTime (steady_clock_now w) s)).
  { unfold updateFrameTime. rewrite Hen, Hp.
    apply Z.eqb_neq in Hplay, Hneq. rewrite Hplay, Hneq.
    apply Z.gtb_lt in Hpos. rewrite Hpos. reflexivity. }
  rewrite Hupd. split; [reflexivity |].
  rewrite (isStreamFrozen_enabled th _ w mp) by (cbn; assumption).
  rewrite Hstate, Herr. cbn [orb lastFrameTime set_lastFrameCount
                               set_lastFrameTime].
  unfold elapsed_seconds. rewrite Z.sub_diag.
  replace (Z.quot 0 ticks_per_second) with 0 by reflexivity.
  destruct (0 >=? th) eqn:Hge; [| reflexivity].
  apply Z.geb_le in Hge. lia.
Qed.



(** *** Reported state *)

(** X9.  [getState] returns one of ["playing"], ["paused"], ["stopped"],
    ["buffering"], ["error"].  It returns ["error"] exactly when the
    guard is passed and the engine state is [libvlc_Error], and
    ["playing"] exactly when the guard is passed and the engine state is
    [libvlc_Playing]. *)
Theorem getState_values (s : VlcPlayer) (w : World) :
  In (getState s w) state_names /\
  (getState s w = "error"
   <-> exists mp, live s = Some mp /\
                  libvlc_media_player_get_state mp w = libvlc_Error) /\
  (getState s w = "playing"
   <-> exists mp, live s = Some mp /\
                  libvlc_media_player_get_state mp w = libvlc_Playing).
Proof.
  unfold getState, state_names.
  destruct (live s) as [mp |].
  - destruct (libvlc_media_player_get_state mp w) eqn:Hst;
      (split; [cbn; tauto |]);
      (split;
       (split;
        [ first [ discriminate
                | intros _; exists mp; split; [reflexivity | exact Hst] ]
        | first [ reflexivity
                | intros (mp' & Hmp' & Hst'); injection Hmp' as <-;
                  congruence ] ])).
  - split; [cbn; tauto |].
    split; split;
      first [discriminate | intros (mp' & Hmp' & _); discriminate Hmp'].
Qed.

(** X10.  When the engine has reached [libvlc_Ended], [getState] reports
    ["stopped"], while [isStreamFrozen], with monitoring enabled, reports
    the stream frozen for every threshold. *)
Theorem ended_reads_stopped_and_frozen (th : Z) (s : VlcPlayer) (w : World)
    (mp : libvlc_media_player_t) :
  initialized s = true -> mediaPlayer s = Some mp ->
  freezeDetectionEnabled s = true ->
  libvlc_media_player_get_state mp w = libvlc_Ended ->
  getState s w = "stopped" /\ fst (isStreamFrozen th s w) = true.
Proof.
  intros Hi Hp Hen Hst. split.
  - unfold getState. rewrite (live_intro s mp Hi Hp), Hst. reflexivity.
  - rewrite (isStreamFrozen_enabled th s w mp Hi Hp Hen), Hst. reflexivity.
Qed.


(** *** The error flag *)

(** A body of [play] that returns leaves the error flag clear if it was
    clear. *)
Lemma play_try_returned_flag (url : string) (mp : libvlc_media_player_t)
    (s : VlcPlayer) (w : World) (b : bool) :
  isInErrorState s = false ->
  fst (fst (play_try url mp s w)) = Returned b ->
  isInErrorState (snd (fst (play_try url mp s w))) = false.
Proof.
  intros Hs. unfold play_try. break_matches; cbn; congruence.
Qed.

(** One call sets the error flag only as the handler of [play]. *)
Lemma error_flag_step (c : call) (s : VlcPlayer) (w : World) :
  isInErrorState s = false -> isInErrorState (after c s w) = true ->
  exists url mp,
    c = Play url /\ live s = Some mp /\
    fst (fst (play_try url mp s w)) = Thrown.
Proof.
  intros Hs Hset. destruct c;
    try (exfalso; revert Hset; cbn [after];
         unfold initialize, stop, pause, resume, setVolume,
           updateFrameTime, recreateMediaPlayer, getStats, startRecording,
           startRecording_try, stopRecording, cleanup, live;
         break_matches; cbn; congruence).
  cbn [after] in Hset. unfold play in Hset.
  destruct (live s) as [mp |] eqn:Hlive; [| cbn in Hset; congruence].
  exists url, mp. split; [reflexivity |]. split; [reflexivity |].
  pose proof (play_try_returned_flag url mp s w) as Hret.
  destruct (play_try url mp s w) as [[[b |] s'] w']; cbn in *.
  - specialize (Hret b Hs eq_refl). congruence.
  - reflexivity.
Qed.

Lemma error_flag_trace (cs : list (call * World)) (s : VlcPlayer) :
  isInErrorState s = false -> isInErrorState (after_all cs s) = true ->
  exists cs1 url w cs2 mp,
    cs = (cs1 ++ (Play url, w) :: cs2)%list /\
    isInErrorState (after_all cs1 s) = false /\
    live (after_all cs1 s) = Some mp /\
    fst (fst (play_try url mp (after_all cs1 s) w)) = Thrown.
Proof.
  revert s. induction cs as [| [c w] cs IH]; intros s Hs Hset.
  - cbn in Hset. congruence.
  - cbn [after_all] in Hset.
    destruct (isInErrorState (after c s w)) eqn:Hstep.
    + destruct (error_flag_step c s w Hs Hstep) as (url & mp & -> & Hl & Ht).
      exists [], url, w, cs, mp. cbn. auto.
    + destruct (IH _ Hstep Hset)
        as (cs1 & url & w' & cs2 & mp & -> & Hc & Hl & Ht).
      exists ((c, w) :: cs1), url, w', cs2, mp. cbn. auto.
Qed.

(** X12.  The error flag is set by nothing but the handler of [play]:
    a call that finds the flag clear and leaves it set is a [play] on a
    live object whose [try] block threw, whatever else fails, in the
    engine or in the string allocations of the other functions.  Hence,
    when [isInError] returns [true] after a sequence of calls on a fresh
    object, some [play] of the sequence threw; and where the copy of the
    URL never fails, [isInError] returns [false] after every
    sequence. *)
Theorem error_flag_set_by_play_handler_only (w0 : World)
    (cs : list (call * World)) :
  (forall c s w,
     isInError s = false -> isInError (after c s w) = true ->
     exists url mp,
       c = Play url /\ live s = Some mp /\
       fst (fst (play_try url mp s w)) = Thrown) /\
  (isInError (after_all cs (VlcPlayer_new w0)) = true ->
   exists cs1 url w cs2 mp,
     cs = (cs1 ++ (Play url, w) :: cs2)%list /\
     isInError (after_all cs1 (VlcPlayer_new w0)) = false /\
     live (after_all cs1 (VlcPlayer_new w0)) = Some mp /\
     fst (fst (play_try url mp (after_all cs1 (VlcPlayer_new w0)) w))
     = Thrown) /\
  ((forall url mp s w, fst (fst (play_try url mp s w)) <> Thrown) ->
   isInError (after_all cs (VlcPlayer_new w0)) = false).
Proof.
  unfold isInError. split; [| split].
  - intros c s w. apply error_flag_step.
  - apply error_flag_trace. reflexivity.
  - intros Hnever.
    destruct (isInErrorState (after_all cs (VlcPlayer_new w0))) eqn:Hset;
      [| reflexivity].
    destruct (error_flag_trace cs (VlcPlayer_new w0) eq_refl Hset)
      as (cs1 & url & w & cs2 & mp & _ & _ & _ & Ht).
    exfalso. exact (Hnever _ _ _ _ Ht).
Qed.

(** *** Recording and the other calls *)

Lemma recording_frame_after (c : call) (s : VlcPlayer) (w : World) :
  is_recording_call c = false ->
  isRecording (after c s w) = isRecording s /\
  recordingPath (after c s w) = recordingPath s.
Proof.
  intros Hc. destruct c; try discriminate Hc; cbn [after];
    unfold initialize, play, play_try, stop, pause, resume, setVolume,
      updateFrameTime, recreateMediaPlayer, getStats, cleanup, live;
    break_matches; cbn; split; reflexivity.
Qed.

(** X13.  The recording flag and path are written by [startRecording]
    and [stopRecording] only: any sequence of other calls, [stop], a
    [play] of another source, [recreateMediaPlayer] and [cleanup]
    included, leaves [isRecording] and [recordingPath] as they were. *)
Theorem recording_survives_other_calls (cs : list (call * World))
    (s : VlcPlayer) :
  Forall (fun cw => is_recording_call (fst cw) = false) cs ->
  getIsRecording (after_all cs s) = getIsRecording s /\
  getRecordingPath (after_all cs s) = getRecordingPath s.
Proof.
  unfold getIsRecording, getRecordingPath.
  intros Hcs. revert s.
  induction Hcs as [| [c w] cs Hc _ IH]; intros s; cbn.
  - split; reflexivity.
  - cbn [fst] in Hc.
    destruct (recording_frame_after c s w Hc) as (H1 & H2).
    destruct (IH (after c s w)) as (H3 & H4).
    split; congruence.
Qed.

(** X14.  A granted [startRecording] followed by [stopRecording] brings
    an object that was not recording back to exactly what it was;
    [stopRecording] returns [true]. *)
Theorem start_stop_round_trip (filePath : string) (s : VlcPlayer)
    (w : World) :
  isRecording s = false -> recordingPath s = "" ->
  fst (fst (startRecording filePath s w)) = true ->
  stopRecording (snd (fst (startRecording filePath s w))) = (true, s).
Proof.
  intros Hrec Hpath. unfold startRecording, startRecording_try.
  destruct (live s) as [mp |]; [| cbn; discriminate].
  rewrite Hrec.
  destruct (string_alloc w); [| cbn; discriminate].
  destruct (libvlc_media_player_get_media mp w) as [[m |] w1];
    [| cbn; discriminate].
  destruct (string_alloc _); [| cbn; discriminate].
  cbn. intros _. destruct s. cbn in *. subst. reflexivity.
Qed.

(** X15.  When the copy of the path throws, [startRecording] returns
    [false] with the recording flag already set and the path not stored:
    the option has been added to the media, and every further
    [startRecording] is refused until [stopRecording] is called, which
    then returns [true]. *)
Theorem startRecording_fault_leaves_flag (filePath : string) (s : VlcPlayer)
    (w : World) (mp : libvlc_media_player_t) (m : libvlc_media_t) :
  initialized s = true -> mediaPlayer s = Some mp ->
  isRecording s = false ->
  fst (libvlc_media_player_get_media mp w) = Some m ->
  let w' := libvlc_media_add_option m (sout_of filePath)
              (snd (libvlc_media_player_get_media mp w)) in
  string_alloc w = true -> string_alloc w' = false ->
  let s' := set_isRecording true s in
  startRecording filePath s w = (false, s', w') /\
  (forall again w2, startRecording again s' w2 = (false, s', w2)) /\
  fst (stopRecording s') = true.
Proof.
  intros Hi Hp Hrec Hm w' Ha1 Ha2 s'. split; [| split].
  - unfold startRecording, startRecording_try.
    rewrite (live_intro s mp Hi Hp), Hrec, Ha1.
    subst w'. revert Ha2.
    destruct (libvlc_media_player_get_media mp w) as [media w1].
    cbn [fst snd] in *. subst media. intros Ha2. rewrite Ha2. reflexivity.
  - intros again w2. unfold startRecording. subst s'.
    cbn [isRecording set_isRecording].
    destruct (live _); reflexivity.
  - reflexivity.
Qed.

(** *** A refused source *)

(** X16.  When [play] is called while the engine is playing and the
    engine cannot open the new location, the old playback has been
    stopped (stop, then the 100 ms wait) but the object is unchanged:
    [play] returns [false], [getCurrentUrl] still returns the old URL
    and monitoring keeps its state. *)
Theorem refused_source_keeps_old_url (url : string) (s : VlcPlayer)
    (w : World) (mp : libvlc_media_player_t) :
  initialized s = true -> mediaPlayer s = Some mp ->
  libvlc_media_player_is_playing mp w <> 0 ->
  let stopped := Sleep 100 (libvlc_media_player_stop mp w) in
  fst (libvlc_media_new_location (vlcInstance s) url stopped) = None ->
  play url s w
  = (false, s, snd (libvlc_media_new_location (vlcInstance s) url stopped)) /\
  getCurrentUrl (snd (fst (play url s w))) = getCurrentUrl s.
Proof.
  intros Hi Hp Hplaying stopped Hnone.
  assert (Hrun : play url s w
                 = (false, s,
                    snd (libvlc_media_new_location (vlcInstance s) url
                           stopped))).
  { unfold play, play_try. rewrite (live_intro s mp Hi Hp).
    apply Z.eqb_neq in Hplaying. rewrite Hplaying. fold stopped.
    destruct (libvlc_media_new_location (vlcInstance s) url stopped)
      as [media w1].
    cbn [fst snd] in *. subst media. reflexivity. }
  split; [exact Hrun |]. rewrite Hrun. reflexivity.
Qed.

(** *** The exported functions *)

Section Exported.
Context {N : Addon.Napi}.

(** One case per exported function. *)
Ltac each_export H :=
  cbn [Addon.exports In] in H;
  repeat (destruct H as [H | H]; [injection H as <- <- |]);
  [.. | contradiction].

Ltac unfold_exports :=
  unfold Addon.Initialize, Addon.Play, Addon.Stop, Addon.Pause,
    Addon.Resume, Addon.SetVolume, Addon.GetVolume, Addon.IsPlaying,
    Addon.GetState, Addon.IsStreamFrozen, Addon.UpdateFrameTime,
    Addon.RecreateMediaPlayer, Addon.GetCurrentUrl, Addon.IsInError,
    Addon.GetStats, Addon.StartRecording, Addon.StopRecording,
    Addon.IsRecording, Addon.GetRecordingPath.

(** X17.  Before the object exists, no exported function other than
    [initialize] creates it or calls the engine; [play] then always
    leaves an exception pending ([TypeError] without a string argument,
    otherwise [Error] with the text [Player not initialized]), while
    [stop] and [startRecording] return [false] with nothing pending. *)
Theorem no_object_no_effect (name : string) (f : Addon.napi_function)
    (info : list Addon.napi_value) (w : World) :
  In (name, f) Addon.exports -> name <> "initialize" ->
  snd (fst (f info None w)) = None /\
  snd (f info None w) = w /\
  (name = "play" -> Addon.pending (fst (fst (f info None w))) <> None) /\
  (name = "play" -> Addon.string_argument info <> None ->
   Addon.pending (fst (fst (f info None w)))
   = Some (Addon.Error "Player not initialized")) /\
  (name = "stop" \/ name = "startRecording" ->
   fst (fst (f info None w)) = Addon.value (Addon.Boolean false)).
Proof.
  intros Hin Hname. each_export Hin; try congruence;
    unfold_exports;
    try (destruct (Addon.number_argument info));
    try (destruct (Addon.string_argument info));
    cbn; repeat split; try discriminate; try congruence;
    try (intros [H | H]; discriminate H).
Qed.

(** X18.  An exported function leaves an exception pending in four
    situations only: [initialize] or [setVolume] without a number as
    first argument, [play] without a string as first argument or before
    the object exists, and [startRecording] without a string as first
    argument once the object exists.  A call that leaves an exception
    pending changes neither the object nor the engine. *)
Theorem exception_cases (name : string) (f : Addon.napi_function)
    (info : list Addon.napi_value) (g : option VlcPlayer) (w : World) :
  In (name, f) Addon.exports ->
  (Addon.pending (fst (fst (f info g w))) <> None
   <-> (name = "initialize" /\ Addon.number_argument info = None) \/
       (name = "setVolume" /\ Addon.number_argument info = None) \/
       (name = "play" /\ (Addon.string_argument info = None \/ g = None)) \/
       (name = "startRecording" /\
        g <> None /\ Addon.string_argument info = None)) /\
  (Addon.pending (fst (fst (f info g w))) <> None ->
   snd (fst (f info g w)) = g /\ snd (f info g w) = w).
Proof.
  intros Hin. each_export Hin; unfold_exports;
    destruct g as [p |];
    try (destruct (Addon.number_argument info) eqn:?);
    try (destruct (Addon.string_argument info) eqn:?);
    repeat match goal with
      | |- context [let '(_, _) := ?x in _] => destruct x as [[? ?] ?]
      | |- context [let '(_, _) := ?x in _] => destruct x as [? ?]
      end;
    cbn;
    (split;
     [ split;
       [ intros H; first [ exfalso; apply H; reflexivity
                         | intuition congruence ]
       | intros H; first [ discriminate
                         | intuition (discriminate || congruence) ] ]
     | intros H; first [ exfalso; apply H; reflexivity
                       | split; reflexivity ] ]).
Qed.

(** On an existing object an exported function acts as one member
    function other than [cleanup], called in the same world. *)
Lemma exported_step (name : string) (f : Addon.napi_function)
    (info : list Addon.napi_value) (p : VlcPlayer) (w : World) :
  In (name, f) Addon.exports ->
  exists c, is_cleanup c = false /\
            snd (fst (f info (Some p) w)) = Some (after c p w).
Proof.
  intros Hin. each_export Hin; unfold_exports.
  - destruct (Addon.number_argument info) as [n |].
    + exists (Initialize (Addon.HWND_of_int64 (Addon.Int64Value n))).
      split; [reflexivity |]. cbn [after].
      destruct (initialize _ p w) as [[b p'] w']. reflexivity.
    + exists GetVolume. split; reflexivity.
  - destruct (Addon.string_argument info) as [s |].
    + exists (Play (Addon.Utf8Value s)). split; [reflexivity |].
      cbn [after]. destruct (play _ p w) as [[b p'] w']. reflexivity.
    + exists GetVolume. split; reflexivity.
  - exists Stop. split; [reflexivity |]. cbn [after].
    destruct (stop p w) as [[b p'] w']. reflexivity.
  - exists Pause. split; [reflexivity |]. cbn [after].
    destruct (pause p w) as [[b p'] w']. reflexivity.
  - exists Resume. split; [reflexivity |]. cbn [after].
    destruct (resume p w) as [[b p'] w']. reflexivity.
  - destruct (Addon.number_argument info) as [n |].
    + exists (SetVolume (Addon.Int32Value n)). split; [reflexivity |].
      cbn [after]. destruct (setVolume _ p w) as [[b p'] w']. reflexivity.
    + exists GetVolume. split; reflexivity.
  - exists GetVolume. split; reflexivity.
  - exists IsPlaying. split; reflexivity.
  - exists GetState. split; reflexivity.
  - exists (IsStreamFrozen (Addon.threshold_argument info)).
    split; [reflexivity |]. cbn [after].
    destruct (isStreamFrozen _ p w) as [b w']. reflexivity.
  - exists UpdateFrameTime. split; reflexivity.
  - exists RecreateMediaPlayer. split; [reflexivity |]. cbn [after].
    destruct (recreateMediaPlayer p w) as [[b p'] w']. reflexivity.
  - exists GetCurrentUrl. split; reflexivity.
  - exists IsInError. split; reflexivity.
  - exists GetStats. split; [reflexivity |]. cbn [after].
    destruct (getStats p w) as [[b p'] w']. reflexivity.
  - destruct (Addon.string_argument info) as [s |].
    + exists (StartRecording (Addon.Utf8Value s)). split; [reflexivity |].
      cbn [after]. destruct (startRecording _ p w) as [[b p'] w'].
      reflexivity.
    + exists GetVolume. split; reflexivity.
  - exists StopRecording. split; [reflexivity |]. cbn [after].
    destruct (stopRecording p) as [b p']. reflexivity.
  - exists IsRecording. split; reflexivity.
  - exists GetRecordingPath. split; reflexivity.
Qed.

(** Without an object an exported function creates none, or creates a
    fresh one and calls [initialize] on it. *)
Lemma exported_step_none (name : string) (f : Addon.napi_function)
    (info : list Addon.napi_value) (w : World) :
  In (name, f) Addon.exports ->
  snd (fst (f info None w)) = None \/
  exists h, snd (fst (f info None w))
            = Some (after (Initialize h) (VlcPlayer_new w) w).
Proof.
  intros Hin. each_export Hin; unfold_exports;
    try (destruct (Addon.number_argument info) as [n |]);
    try (destruct (Addon.string_argument info));
    try (left; reflexivity).
  all: right; exists (Addon.HWND_of_int64 (Addon.Int64Value n));
    cbn [after]; destruct (initialize _ _ w) as [[b p'] w']; reflexivity.
Qed.

Lemma object_kept (calls : list (Addon.napi_function
                                 * list Addon.napi_value * World))
    (p : VlcPlayer) :
  Forall exported calls -> Addon.player_after calls (Some p) <> None.
Proof.
  intros Hcalls. revert p.
  induction Hcalls as [| [[f info] w] calls [name Hin] _ IH]; intros p.
  - cbn. discriminate.
  - cbn [Addon.player_after]. cbn [fst] in Hin.
    destruct (exported_step name f info p w Hin) as (c & _ & Hstep).
    rewrite Hstep. apply IH.
Qed.

(** X19.  [initialize] called with a number creates the object whether
    or not the engine can be initialized, and no exported function ever
    deletes it: after such a call and any further calls the object
    exists, and [play] called with a string leaves no exception
    pending. *)
Theorem object_created_for_good (n : Addon.js_number)
    (rest : list Addon.napi_value) (g : option VlcPlayer) (w : World)
    (calls : list (Addon.napi_function * list Addon.napi_value * World)) :
  Forall exported calls ->
  let g' := Addon.player_after
              ((Addon.Initialize, Addon.Number n :: rest, w) :: calls) g in
  g' <> None /\
  (forall s info w',
     Addon.pending (fst (fst (Addon.Play (Addon.String s :: info) g' w')))
     = None).
Proof.
  intros Hcalls g'.
  assert (Hg' : g' <> None).
  { subst g'. cbn [Addon.player_after]. unfold Addon.Initialize.
    cbn [Addon.number_argument].
    destruct (initialize _ _ w) as [[b p'] w']. cbn [fst snd].
    apply object_kept. exact Hcalls. }
  split; [exact Hg' |].
  intros s info w'. destruct g' as [p |]; [| congruence].
  unfold Addon.Play. cbn [Addon.string_argument].
  destruct (play _ p w') as [[b p'] w'']. reflexivity.
Qed.

(** X20.  The object behind the exported functions keeps the invariants
    of the class after any sequence of calls from JavaScript: a player
    handle only when [initialized] is set, [initialized] set iff the
    engine instance exists, and no recording path while no recording is
    active. *)
Theorem global_object_invariant
    (calls : list (Addon.napi_function * list Addon.napi_value * World)) :
  Forall exported calls ->
  match Addon.player_after calls None with
  | Some p => handles_invariant p /\ idle_recording_has_no_path p
  | None => True
  end.
Proof.
  intros Hcalls.
  assert (Hgen : forall g,
             match g with
             | Some p => handles_invariant p /\ idle_recording_has_no_path p
             | None => True
             end ->
             match Addon.player_after calls g with
             | Some p => handles_invariant p /\ idle_recording_has_no_path p
             | None => True
             end).
  { induction Hcalls as [| [[f info] w] calls [name Hin] _ IH]; intros g Hg.
    - exact Hg.
    - cbn [Addon.player_after]. cbn [fst] in Hin. apply IH.
      destruct g as [p |].
      + destruct (exported_step name f info p w Hin) as (c & _ & Hstep).
        rewrite Hstep. destruct Hg as [H1 H2]. split.
        * apply handles_invariant_after. exact H1.
        * apply idle_recording_after. exact H2.
      + destruct (exported_step_none name f info w Hin) as [Hn | (h & Hs)].
        * rewrite Hn. exact I.
        * rewrite Hs. split.
          -- apply handles_invariant_after. apply handles_invariant_new.
          -- apply idle_recording_after. intros _. reflexivity. }
  apply Hgen. exact I.
Qed.

(** X21.  Once [initialize] has succeeded it succeeds for good: after
    any further calls from JavaScript, [initialize] with a number
    returns [true] without calling the engine, and the window handle it
    is given is not stored. *)
Theorem initialize_stays_true (p : VlcPlayer)
    (calls : list (Addon.napi_function * list Addon.napi_value * World))
    (n : Addon.js_number) (rest : list Addon.napi_value) (w : World) :
  initialized p = true ->
  Forall exported calls ->
  exists p',
    Addon.player_after calls (Some p) = Some p' /\
    hwnd p' = hwnd p /\
    Addon.Initialize (Addon.Number n :: rest) (Some p') w
    = (Addon.value (Addon.Boolean true), Some p', w).
Proof.
  intros Hi Hcalls. revert p Hi.
  induction Hcalls as [| [[f info] w1] calls [name Hin] _ IH]; intros p Hi.
  - exists p. cbn. split; [reflexivity | split; [reflexivity |]].
    unfold Addon.Initialize, initialize. cbn. rewrite Hi. reflexivity.
  - cbn [Addon.player_after]. cbn [fst] in Hin.
    destruct (exported_step name f info p w1 Hin) as (c & Hc & Hstep).
    rewrite Hstep.
    destruct (permanent_after c p w1 Hc Hi) as (Hi1 & Hh1 & _).
    destruct (IH _ Hi1) as (p' & Hp' & Hh' & Hinit).
    exists p'. split; [exact Hp' | split; [congruence | exact Hinit]].
Qed.

End Exported.

End Properties.


(** ** The operations on the scripted engine *)

(** C1, as worded, fails.  The session has just started playing
    ([lastFrameTime] is the current time, so no time has elapsed) and the
    engine state is [Playing], but the current media is in state [Error]:
    [isStreamFrozen(10)] returns [true] although the ten seconds have not
    passed. *)
Lemma isStreamFrozen_media_error_counterexample :
  let E := Script.env true in
  let s := Script.session in
  let w := Script.streaming 0 libvlc_Playing libvlc_Error in
  initialized s = true /\
  mediaPlayer s = Some 2%N /\
  freezeDetectionEnabled s = true /\
  libvlc_media_player_get_state 2%N w = libvlc_Playing /\
  fst (isStreamFrozen 10 s w) = true /\
  ~ (10 * ticks_per_second <= steady_clock_now w - lastFrameTime s) /\
  ~ (fst (isStreamFrozen 10 s w) = true
     <-> 10 * ticks_per_second <= steady_clock_now w - lastFrameTime s).
Proof.
  cbv zeta.
  assert (Hlate : ~ (10 * Script.ticks <= 0 - 0))
    by (unfold Script.ticks; lia).
  repeat split; try reflexivity; try exact Hlate.
  intros [Hto _]. apply Hlate. apply Hto. reflexivity.
Qed.

(** The freeze check on the scripted engine: frozen after eleven seconds
    without an observation, frozen at once when the engine has ended,
    not frozen while paused, not frozen before any [play]. *)
Lemma isStreamFrozen_spec_witness :
  fst (isStreamFrozen (E := Script.env true) 10 Script.session
         (Script.streaming Script.eleven_seconds
            libvlc_Playing libvlc_Playing)) = true /\
  fst (isStreamFrozen (E := Script.env true) 10 Script.session
         (Script.streaming 0 libvlc_Ended libvlc_Playing)) = true /\
  fst (isStreamFrozen (E := Script.env true) 10 Script.session
         (Script.streaming Script.eleven_seconds
            libvlc_Paused libvlc_Playing)) = false /\
  fst (isStreamFrozen (E := Script.env true) 10 Script.ready
         (Script.streaming Script.eleven_seconds
            libvlc_Playing libvlc_Playing)) = false.
Proof.
  pose proof (proj2 (isStreamFrozen_spec (E := Script.env true) 10
                       Script.session
                       (Script.streaming Script.eleven_seconds
                          libvlc_Playing libvlc_Playing))
                2%N eq_refl eq_refl eq_refl) as Hplaying.
  pose proof (proj2 (isStreamFrozen_spec (E := Script.env true) 10
                       Script.session
                       (Script.streaming 0 libvlc_Ended libvlc_Playing))
                2%N eq_refl eq_refl eq_refl) as Hended.
  pose proof (proj2 (isStreamFrozen_spec (E := Script.env true) 10
                       Script.session
                       (Script.streaming Script.eleven_seconds
                          libvlc_Paused libvlc_Playing))
                2%N eq_refl eq_refl eq_refl) as Hpaused.
  pose proof (proj1 (isStreamFrozen_spec (E := Script.env true) 10
                       Script.ready
                       (Script.streaming Script.eleven_seconds
                          libvlc_Playing libvlc_Playing))) as Hoff.
  cbv zeta in Hplaying, Hended, Hpaused.
  destruct Hplaying as (_ & _ & Hplaying).
  destruct Hended as (Hended & _).
  destruct Hpaused as (_ & Hpaused & _).
  split; [| split; [| split]].
  - apply Hplaying.
    + reflexivity.
    + reflexivity.
    + vm_compute. discriminate.
    + right. vm_compute. discriminate.
  - apply Hended. right. reflexivity.
  - apply Hpaused; discriminate.
  - apply Hoff. reflexivity.
Defined.

(** C2: the code returns zeros where the specification promises the
    cached snapshot.  The first [getStats] reads [sample_stats] and caches them.
    The second meets an engine that reports no statistics, the third a
    player without a current media: both return the all-zero snapshot,
    not the cached one, and leave the cache untouched. *)
Lemma getStats_failure_returns_zeros :
  let E := Script.env true in
  let first :=
    getStats Script.session (Script.reporting (Some Script.sample_stats)) in
  let cached := snd (fst first) in
  let second := getStats cached (Script.reporting None) in
  let third := getStats cached Script.idle in
  ~ all_zero (fst (fst first)) /\
  lastStats cached = fst (fst first) /\
  all_zero (fst (fst second)) /\
  fst (fst second) <> lastStats cached /\
  lastStats (snd (fst second)) = fst (fst first) /\
  all_zero (fst (fst third)) /\
  fst (fst third) <> lastStats cached.
Proof.
  cbv zeta. unfold all_zero. repeat split; try reflexivity.
  - cbn. intros (H & _). discriminate H.
  - cbn. discriminate.
  - cbn. discriminate.
Qed.

(** C3: the code leaves the error flag clear where the specification
    promises it set.  On an initialized object whose error flag is clear, [play]
    fails because the engine cannot open the location, or because its
    play request returns [-1]: both calls return [false] and the error
    flag stays clear.  Only the handler of the [try] block sets the flag:
    the same call on an engine that grants every request, with the copy
    of the URL throwing, returns [false] with the flag set. *)
Lemma play_engine_failure_leaves_error_flag_clear :
  let refused := play (E := Script.env true)
                   Script.url Script.ready Script.no_media in
  let rejected := play (E := Script.env true)
                    Script.url Script.ready Script.play_fails in
  let faulted := play (E := Script.env false)
                   Script.url Script.ready Script.idle in
  initialized Script.ready = true /\
  mediaPlayer Script.ready = Some 2%N /\
  isInError Script.ready = false /\
  fst (fst refused) = false /\ isInError (snd (fst refused)) = false /\
  fst (fst rejected) = false /\ isInError (snd (fst rejected)) = false /\
  fst (fst faulted) = false /\ isInError (snd (fst faulted)) = true.
Proof. cbv zeta. repeat split; reflexivity. Qed.

(** Recovery on the scripted engine: a recovery of the object whose error
    flag is set, which releases player [2], gets a new player, attaches
    window [42] and clears the flag; a recovery that gets no player and
    leaves the flag set; and the retry after it, which clears it. *)
Lemma recreateMediaPlayer_spec_witness :
  let E := Script.env true in
  let lost := snd (fst (recreateMediaPlayer Script.faulted
                          Script.no_player)) in
  isInError Script.faulted = true /\
  recreateMediaPlayer Script.faulted Script.idle
  = (true,
     set_isInErrorState false (set_mediaPlayer (Some 2%N) Script.faulted),
     Script.logged (Script.c_set_hwnd 2%N 42)
       (Script.logged (Script.c_player_new 1%N)
          (Script.logged (Script.c_player_release 2%N) Script.idle))) /\
  isInError (snd (fst (recreateMediaPlayer Script.faulted Script.idle)))
  = false /\
  recreateMediaPlayer Script.faulted Script.no_player
  = (false, set_mediaPlayer None Script.faulted,
     Script.logged (Script.c_player_new 1%N)
       (Script.logged (Script.c_player_release 2%N) Script.no_player)) /\
  isInErrorState lost = true /\
  vlcInstance lost = Some 1%N /\
  fst (fst (recreateMediaPlayer lost Script.idle)) = true /\
  isInErrorState (snd (fst (recreateMediaPlayer lost Script.idle))) = false.
Proof.
  cbv zeta.
  pose proof (proj2 (proj2 (recreateMediaPlayer_spec (E := Script.env true)
                              Script.faulted Script.idle))
                1%N eq_refl) as Hok.
  pose proof (proj2 (proj2 (recreateMediaPlayer_spec (E := Script.env true)
                              Script.faulted Script.no_player))
                1%N eq_refl) as Hfail.
  cbv zeta in Hok, Hfail.
  destruct Hok as (Hok & _ & _ & Hclear & _).
  destruct Hfail as (Hfail & _ & Hkept & Hinst & Hretry).
  destruct (Hretry Script.idle) as (Hagain & Hcleared); [discriminate |].
  split; [reflexivity |]. split; [exact Hok |]. split; [exact Hclear |].
  split; [exact Hfail |]. split; [exact Hkept |]. split; [exact Hinst |].
  split; [exact Hagain | exact Hcleared].
Defined.

(** C5, as worded, fails.  After [initialize(42)] and a
    [recreateMediaPlayer] that gets no player from the engine,
    [initialized] is set and there is no player handle. *)
Lemma session_invariant_counterexample :
  Script.recreate_failed
  = after_all (E := Script.env true)
      [ (Initialize 42, Script.idle);
        (RecreateMediaPlayer, Script.no_player) ]
      (VlcPlayer_new (E := Script.env true) Script.idle) /\
  initialized Script.recreate_failed = true /\
  mediaPlayer Script.recreate_failed = None /\
  ~ session_invariant Script.recreate_failed.
Proof.
  repeat split.
  intros ((_ & Hinit) & _). apply Hinit; reflexivity.
Qed.

(** C6, as worded, fails.  With a source loaded, [startRecording("")]
    returns [true]: a recording is active and the stored path is
    empty. *)
Lemma recording_invariant_counterexample :
  fst (fst (startRecording (E := Script.env true) "" Script.session
              (Script.streaming 0 libvlc_Playing libvlc_Playing))) = true /\
  Script.recording_to_nowhere
  = snd (fst (startRecording (E := Script.env true) "" Script.session
                (Script.streaming 0 libvlc_Playing libvlc_Playing))) /\
  recording_invariant Script.session /\
  isRecording Script.recording_to_nowhere = true /\
  recordingPath Script.recording_to_nowhere = "" /\
  ~ recording_invariant Script.recording_to_nowhere.
Proof.
  repeat split; try discriminate.
  - intros H. exfalso. apply H. reflexivity.
  - intros (_ & H). apply H; reflexivity.
Qed.

(** The recording state after a recording to [/tmp/out.ts] has
    started. *)
Lemma recording_invariant_amended_witness :
  let s :=
    after_all (E := Script.env true)
      [ (Initialize 42, Script.idle); (Play Script.url, Script.idle);
        (StartRecording "/tmp/out.ts",
         Script.streaming 0 libvlc_Playing libvlc_Playing) ]
      (VlcPlayer_new (E := Script.env true) Script.idle) in
  idle_recording_has_no_path s /\ recording_invariant s /\
  isRecording s = true /\ recordingPath s = "/tmp/out.ts".
Proof.
  cbv zeta.
  destruct (recording_invariant_amended (E := Script.env true) Script.idle
              [ (Initialize 42, Script.idle); (Play Script.url, Script.idle);
                (StartRecording "/tmp/out.ts",
                 Script.streaming 0 libvlc_Playing libvlc_Playing) ])
    as (Hidle & Hiff).
  split; [exact Hidle | split; [| split; reflexivity]].
  apply Hiff.
  - intros w. reflexivity.
  - repeat constructor. cbn. discriminate.
Defined.

(** The recording scenario of the specification on the scripted engine:
    refused on a fresh object and without a source, granted with a source
    loaded, refused while the recording runs. *)
Lemma startRecording_spec_witness :
  let E := Script.env true in
  let streaming := Script.streaming 0 libvlc_Playing libvlc_Playing in
  let recording :=
    set_recordingPath "/tmp/out.ts" (set_isRecording true Script.session) in
  startRecording "/tmp/out.ts" (VlcPlayer_new Script.idle) streaming
  = (false, VlcPlayer_new Script.idle, streaming) /\
  fst (fst (startRecording "/tmp/out.ts" Script.ready Script.idle)) = false /\
  startRecording "/tmp/out.ts" Script.session streaming
  = (true, recording,
     Script.logged
       (Script.c_add_option 3%N
          "#duplicate{dst=display,dst=std{access=file,mux=ts,dst=/tmp/out.ts}}")
       (Script.logged (Script.c_get_media 2%N) streaming)) /\
  getIsRecording recording = true /\
  getRecordingPath recording = "/tmp/out.ts" /\
  startRecording "/tmp/other.ts" recording streaming
  = (false, recording, streaming).
Proof.
  cbv zeta.
  destruct (startRecording_spec (E := Script.env true) "/tmp/out.ts"
              (VlcPlayer_new (E := Script.env true) Script.idle)
              (Script.streaming 0 libvlc_Playing libvlc_Playing))
    as (Hfresh & _).
  destruct (startRecording_spec (E := Script.env true) "/tmp/out.ts"
              Script.ready Script.idle)
    as (_ & _ & Hnone & _).
  destruct (startRecording_spec (E := Script.env true) "/tmp/out.ts"
              Script.session
              (Script.streaming 0 libvlc_Playing libvlc_Playing))
    as (_ & _ & _ & Hstart).
  destruct (startRecording_spec (E := Script.env true) "/tmp/other.ts"
              (set_recordingPath "/tmp/out.ts"
                 (set_isRecording true Script.session))
              (Script.streaming 0 libvlc_Playing libvlc_Playing))
    as (_ & Hbusy & _).
  specialize (Hstart 2%N 3%N eq_refl eq_refl eq_refl eq_refl
                eq_refl eq_refl).
  cbv zeta in Hstart. destruct Hstart as (Hrun & Hflag & Hpath & _).
  split; [apply Hfresh; left; reflexivity |].
  split; [apply (Hnone 2%N); reflexivity |].
  split; [exact Hrun |].
  split; [reflexivity |].
  split; [reflexivity |].
  apply Hbusy. reflexivity.
Defined.

(** Stopping the session that plays [url]. *)
Lemma stop_spec_witness :
  let E := Script.env true in
  let stopped := snd (fst (stop Script.session Script.idle)) in
  getCurrentUrl Script.session = Script.url /\
  fst (fst (stop Script.session Script.idle)) = true /\
  snd (stop Script.session Script.idle)
  = Script.logged (Script.c_stop 2%N) Script.idle /\
  freezeDetectionEnabled stopped = false /\
  isInErrorState stopped = false /\
  getCurrentUrl stopped = "" /\
  fst (isStreamFrozen 10 stopped
         (Script.streaming Script.eleven_seconds
            libvlc_Playing libvlc_Playing)) = false.
Proof.
  cbv zeta.
  destruct (stop_spec (E := Script.env true) Script.session Script.idle
              2%N eq_refl eq_refl)
    as (Hrun & Hoff & _ & Hflag & Hurl & Hfrozen).
  split; [reflexivity |].
  rewrite Hrun. cbn [fst snd]. split; [reflexivity |].
  split; [reflexivity |].
  rewrite Hrun in Hoff, Hflag, Hurl, Hfrozen. cbn [fst snd] in *.
  split; [exact Hoff |]. split; [exact Hflag |]. split; [exact Hurl |].
  apply Hfrozen.
Defined.

(** Volumes [150], [-7] and [35] on the scripted engine, which keeps the
    volume it is given. *)
Lemma setVolume_then_getVolume_witness :
  let E := Script.env true in
  setVolume 150 Script.session Script.idle
  = (true, Script.session,
     Script.with_volume 100
       (Script.logged (Script.c_set_volume 2%N 100) Script.idle)) /\
  getVolume (snd (fst (setVolume 150 Script.session Script.idle)))
    (snd (setVolume 150 Script.session Script.idle)) = 100 /\
  getVolume (snd (fst (setVolume (-7) Script.session Script.idle)))
    (snd (setVolume (-7) Script.session Script.idle)) = 0 /\
  getVolume (snd (fst (setVolume 35 Script.session Script.idle)))
    (snd (setVolume 35 Script.session Script.idle)) = 35.
Proof.
  cbv zeta.
  assert (Hengine : forall p x w0, 0 <= x <= 100 ->
            libvlc_audio_get_volume (Env := Script.env true) p
              (snd (libvlc_audio_set_volume (Env := Script.env true) p x w0))
            = x).
  { intros p x w0 [Hlo Hhi]. cbn.
    rewrite (proj2 (Z.leb_le 0 x) Hlo), (proj2 (Z.leb_le x 100) Hhi).
    reflexivity. }
  destruct (setVolume_then_getVolume (E := Script.env true) 150
              Script.session Script.idle 2%N eq_refl eq_refl)
    as (Hset & Hget).
  split; [exact Hset |].
  split; [exact (Hget Hengine) |].
  split.
  - exact (proj2 (setVolume_then_getVolume (E := Script.env true) (-7)
                    Script.session Script.idle 2%N eq_refl eq_refl) Hengine).
  - exact (proj2 (setVolume_then_getVolume (E := Script.env true) 35
                    Script.session Script.idle 2%N eq_refl eq_refl) Hengine).
Defined.

(** Resuming while the engine is not playing and rejects the play
    request: [resume] returns [true] and the error flag stays clear. *)
Lemma resume_always_succeeds_witness :
  let E := Script.env true in
  libvlc_media_player_is_playing 2%N Script.play_fails = 0 /\
  fst (libvlc_media_player_play 2%N Script.play_fails) = -1 /\
  resume Script.session Script.play_fails
  = (true, Script.session,
     Script.logged (Script.c_play 2%N) Script.play_fails) /\
  isInError (snd (fst (resume Script.session Script.play_fails))) = false.
Proof.
  cbv zeta.
  destruct (resume_always_succeeds (E := Script.env true) Script.session
              Script.play_fails 2%N eq_refl eq_refl)
    as (_ & Hsame & Hrun).
  split; [reflexivity |]. split; [reflexivity |].
  split.
  - apply Hrun; [reflexivity | discriminate].
  - rewrite Hsame. reflexivity.
Defined.

(** ** Further runs on the scripted engine *)

(** [initialize(42)] against an engine that creates an instance but no
    player: the call fails, the handle is stored, the instance is
    released. *)
Lemma initialize_result_is_flag_witness :
  let E := Script.env true in
  let r := initialize 42 (VlcPlayer_new Script.idle) Script.no_player in
  fst (fst r) = false /\
  initialized (snd (fst r)) = false /\
  vlcInstance (snd (fst r)) = None /\
  hwnd (snd (fst r)) = 42 /\
  snd r
  = Script.logged (Script.c_release 1%N)
      (Script.logged (Script.c_player_new 1%N)
         (Script.logged (Script.c_new vlc_args) Script.no_player)).
Proof.
  cbv zeta.
  destruct (initialize_result_is_flag (E := Script.env true) 42
              (VlcPlayer_new (E := Script.env true) Script.idle)
              Script.no_player)
    as (Hflag & Hfail & Hrel).
  cbv zeta in Hflag, Hfail, Hrel.
  destruct (Hfail eq_refl) as (Hinst & Hh).
  split; [reflexivity |].
  split; [rewrite <- Hflag; reflexivity |].
  split; [exact Hinst |]. split; [exact Hh |].
  exact (Hrel 1%N eq_refl eq_refl eq_refl).
Defined.

(** The session after a stop, a play and a recovery: still initialized,
    same window, and [initialize(7)] changes nothing. *)
Lemma initialized_is_permanent_witness :
  let E := Script.env true in
  let s := after_all Script.interlude Script.session in
  initialized s = true /\ hwnd s = 42 /\ vlcInstance s = Some 1%N /\
  initialize 7 s Script.no_instance = (true, s, Script.no_instance).
Proof.
  cbv zeta.
  destruct (initialized_is_permanent (E := Script.env true)
              Script.interlude Script.session 7 Script.no_instance eq_refl)
    as (H1 & H2 & H3 & H4).
  - repeat constructor.
  - split; [exact H1 |]. split; [exact H2 |]. split; [exact H3 | exact H4].
Defined.

(** The guarded calls on the object that lost its player. *)
Lemma not_live_defaults_witness :
  let E := Script.env true in
  let s := Script.recreate_failed in
  let w := Script.streaming 0 libvlc_Playing libvlc_Playing in
  play Script.url s w = (false, s, w) /\
  stop s w = (false, s, w) /\
  getVolume s w = 0 /\
  getState s w = "stopped" /\
  getStats s w = (StreamStats_default, s, w).
Proof.
  cbv zeta.
  destruct (not_live_defaults (E := Script.env true) Script.recreate_failed
              (Script.streaming 0 libvlc_Playing libvlc_Playing)
              (or_intror eq_refl))
    as (Hplay & Hstop & _ & _ & _ & Hvol & _ & Hstate & _ & Hstats & _).
  split; [apply Hplay |]. split; [exact Hstop |]. split; [exact Hvol |].
  split; [exact Hstate | exact Hstats].
Defined.

(** Tearing the session down: stop, release of player [2], release of
    instance [1]. *)
Lemma cleanup_spec_witness :
  let E := Script.env true in
  snd (cleanup Script.session Script.idle)
  = Script.logged (Script.c_release 1%N)
      (Script.logged (Script.c_player_release 2%N)
         (Script.logged (Script.c_stop 2%N) Script.idle)) /\
  cleanup (fst (cleanup Script.session Script.idle)) Script.idle
  = (fst (cleanup Script.session Script.idle), Script.idle) /\
  getCurrentUrl (fst (cleanup Script.session Script.idle)) = Script.url.
Proof.
  cbv zeta.
  destruct (cleanup_spec (E := Script.env true) Script.session Script.idle)
    as (Hs & _ & Hagain & Hworld).
  cbv zeta in Hs, Hagain, Hworld.
  split; [exact (Hworld 2%N 1%N eq_refl eq_refl) |].
  split; [apply Hagain |].
  rewrite Hs. reflexivity.
Defined.

(** An observation at position 1000 ms, one second into the stream. *)
Lemma updateFrameTime_frame_witness :
  let E := Script.env true in
  let s' := updateFrameTime Script.session
              (Script.playing_at Script.ticks 1000) in
  lastFrameCount s' = 1000 /\ lastFrameTime s' = Script.ticks /\
  currentUrl s' = Script.url.
Proof.
  cbv zeta.
  destruct (updateFrameTime_frame (E := Script.env true) Script.session
              (Script.playing_at Script.ticks 1000))
    as (Hframe & Hmoved).
  cbv zeta in Hframe, Hmoved.
  assert (Hneq : updateFrameTime (E := Script.env true) Script.session
                   (Script.playing_at Script.ticks 1000)
                 <> Script.session).
  { intros H. apply (f_equal lastFrameCount) in H. discriminate H. }
  destruct (Hmoved Hneq) as (_ & _ & Htime).
  split; [reflexivity |]. split; [exact Htime |].
  rewrite Hframe. reflexivity.
Defined.

(** The observation above, then the freeze check in the same instant. *)
Lemma observation_restarts_timer_witness :
  let E := Script.env true in
  let w := Script.playing_at Script.eleven_seconds 1000 in
  fst (isStreamFrozen 10 Script.session w) = true /\
  fst (isStreamFrozen 10 (updateFrameTime Script.session w) w) = false.
Proof.
  cbv zeta. split; [reflexivity |].
  apply (observation_restarts_timer (E := Script.env true) 10
           Script.session
           (Script.playing_at Script.eleven_seconds 1000) 2%N);
    try reflexivity; discriminate.
Defined.


(** The session when the engine has reached the end of the stream. *)
Lemma ended_reads_stopped_and_frozen_witness :
  let E := Script.env true in
  let w := Script.streaming 0 libvlc_Ended libvlc_Ended in
  getState Script.session w = "stopped" /\
  fst (isStreamFrozen 10 Script.session w) = true.
Proof.
  cbv zeta.
  apply (ended_reads_stopped_and_frozen (E := Script.env true) 10
           Script.session (Script.streaming 0 libvlc_Ended libvlc_Ended)
           2%N); reflexivity.
Defined.


(** With an allocator that always fails, a recording start that throws
    leaves the error flag clear, and the [play] that throws sets it.
    With an allocator that never fails, two refused sources in a row
    leave it clear. *)
Lemma error_flag_set_by_play_handler_only_witness :
  let w := Script.streaming 0 libvlc_Playing libvlc_Playing in
  isInError
    (after_all (E := Script.env false)
       [ (Initialize 42, Script.idle); (StartRecording "/tmp/out.ts", w) ]
       (VlcPlayer_new (E := Script.env false) Script.idle)) = false /\
  isInError
    (after_all (E := Script.env false) Script.fault_run
       (VlcPlayer_new (E := Script.env false) Script.idle)) = true /\
  (exists cs1 url w' cs2 mp,
     Script.fault_run = (cs1 ++ (Play url, w') :: cs2)%list /\
     isInError
       (after_all (E := Script.env false) cs1
          (VlcPlayer_new (E := Script.env false) Script.idle)) = false /\
     live
       (after_all (E := Script.env false) cs1
          (VlcPlayer_new (E := Script.env false) Script.idle)) = Some mp /\
     fst (fst (play_try (E := Script.env false) url mp
                 (after_all (E := Script.env false) cs1
                    (VlcPlayer_new (E := Script.env false) Script.idle))
                 w')) = Thrown) /\
  isInError
    (after_all (E := Script.env true)
       [ (Initialize 42, Script.idle); (Play Script.url, Script.no_media);
         (Play Script.url, Script.play_fails) ]
       (VlcPlayer_new (E := Script.env true) Script.idle)) = false.
Proof.
  cbv zeta.
  destruct (error_flag_set_by_play_handler_only (E := Script.env false)
              Script.idle Script.fault_run) as (_ & Htrace & _).
  destruct (error_flag_set_by_play_handler_only (E := Script.env true)
              Script.idle
              [ (Initialize 42, Script.idle);
                (Play Script.url, Script.no_media);
                (Play Script.url, Script.play_fails) ])
    as (_ & _ & Hnever).
  split; [reflexivity |]. split; [reflexivity |].
  split; [apply Htrace; reflexivity |].
  apply Hnever. intros url mp s w. unfold play_try. cbn.
  destruct (Script.playing w =? 0); cbn;
    destruct (Script.next_media _); cbn; try discriminate;
    destruct (Script.play_result _ =? 0); discriminate.
Defined.

(** A recording outlives a stop, a play of another source and a
    recovery. *)
Lemma recording_survives_other_calls_witness :
  let E := Script.env true in
  let s := after_all Script.interlude Script.recording in
  getIsRecording s = true /\ getRecordingPath s = "/tmp/out.ts" /\
  getCurrentUrl s = "udp://239.0.0.2:1234".
Proof.
  cbv zeta.
  destruct (recording_survives_other_calls (E := Script.env true)
              Script.interlude Script.recording)
    as (H1 & H2).
  - repeat constructor.
  - split; [exact H1 |]. split; [exact H2 | reflexivity].
Defined.

(** Starting and stopping a recording on the session. *)
Lemma start_stop_round_trip_witness :
  let E := Script.env true in
  let w := Script.streaming 0 libvlc_Playing libvlc_Playing in
  stopRecording (snd (fst (startRecording "/tmp/out.ts" Script.session w)))
  = (true, Script.session).
Proof.
  cbv zeta.
  apply (start_stop_round_trip (E := Script.env true) "/tmp/out.ts"
           Script.session
           (Script.streaming 0 libvlc_Playing libvlc_Playing));
    reflexivity.
Defined.

(** Starting a recording when the allocator gives out after the option
    has been added. *)
Lemma startRecording_fault_leaves_flag_witness :
  let E := Script.env_with Script.exhausted_by_option in
  let w := Script.streaming 0 libvlc_Playing libvlc_Playing in
  let r := startRecording "/tmp/out.ts" Script.session w in
  fst (fst r) = false /\
  getIsRecording (snd (fst r)) = true /\
  getRecordingPath (snd (fst r)) = "" /\
  fst (fst (startRecording "/tmp/out.ts" (snd (fst r)) w)) = false.
Proof.
  cbv zeta.
  destruct (startRecording_fault_leaves_flag
              (E := Script.env_with Script.exhausted_by_option)
              "/tmp/out.ts" Script.session
              (Script.streaming 0 libvlc_Playing libvlc_Playing)
              2%N 3%N eq_refl eq_refl eq_refl eq_refl eq_refl eq_refl)
    as (Hrun & Hagain & _).
  rewrite Hrun. cbn [fst snd].
  split; [reflexivity |]. split; [reflexivity |]. split; [reflexivity |].
  rewrite Hagain. reflexivity.
Defined.

(** Switching to a source the engine cannot open. *)
Lemma refused_source_keeps_old_url_witness :
  let E := Script.env true in
  let r := play "udp://239.0.0.2:1234" Script.session Script.busy_no_media in
  fst (fst r) = false /\
  getCurrentUrl (snd (fst r)) = Script.url /\
  Script.log (snd r)
  = [ Script.c_media_new (Some 1%N) "udp://239.0.0.2:1234";
      Script.c_sleep 100; Script.c_stop 2%N ].
Proof.
  cbv zeta.
  destruct (refused_source_keeps_old_url (E := Script.env true)
              "udp://239.0.0.2:1234" Script.session Script.busy_no_media
              2%N eq_refl eq_refl)
    as (Hrun & Hurl).
  - discriminate.
  - reflexivity.
  - rewrite Hrun. cbn [fst snd].
    split; [reflexivity |]. split; reflexivity.
Defined.

(** Membership in the list of exports, by position. *)
Ltac pick_export :=
  cbn [Addon.exports In fst]; repeat (first [left; reflexivity | right]).

(** [stop()] and [play(url)] from JavaScript before any
    [initialize]. *)
Lemma no_object_no_effect_witness :
  let E := Script.env true in
  let N := Script.napi in
  fst (fst (Addon.Stop [] None Script.idle))
  = Addon.value (Addon.Boolean false) /\
  snd (fst (Addon.Stop [] None Script.idle)) = None /\
  snd (Addon.Stop [] None Script.idle) = Script.idle /\
  Addon.pending
    (fst (fst (Addon.Play [Addon.String Script.url] None Script.idle)))
  = Some (Addon.Error "Player not initialized").
Proof.
  cbv zeta.
  destruct (no_object_no_effect (E := Script.env true) (N := Script.napi)
              "stop" Addon.Stop [] Script.idle)
    as (Hobj & Hworld & _ & _ & Hres).
  { pick_export. }
  { discriminate. }
  destruct (no_object_no_effect (E := Script.env true) (N := Script.napi)
              "play" Addon.Play
              [Addon.String (N := Script.napi) Script.url] Script.idle)
    as (_ & _ & _ & Herr & _).
  { pick_export. }
  { discriminate. }
  split; [exact (Hres (or_introl eq_refl)) |].
  split; [exact Hobj |]. split; [exact Hworld |].
  apply Herr; [reflexivity | discriminate].
Defined.

(** [setVolume("loud")] on the session: a [TypeError], and nothing
    changes. *)
Lemma exception_cases_witness :
  let E := Script.env true in
  let N := Script.napi in
  let r := Addon.SetVolume [Addon.String "loud"] (Some Script.session)
             Script.idle in
  Addon.pending (fst (fst r))
  = Some (Addon.TypeError "Volume (number) expected") /\
  snd (fst r) = Some Script.session /\ snd r = Script.idle.
Proof.
  cbv zeta.
  destruct (exception_cases (E := Script.env true) (N := Script.napi)
              "setVolume" Addon.SetVolume
              [Addon.String (N := Script.napi) "loud"]
              (Some Script.session) Script.idle)
    as (Hiff & Hkeep).
  { pick_export. }
  assert (Hpending : Addon.pending
                       (fst (fst (Addon.SetVolume (E := Script.env true)
                                    [Addon.String (N := Script.napi) "loud"]
                                    (Some Script.session) Script.idle)))
                     <> None).
  { apply Hiff. right. left. split; reflexivity. }
  destruct (Hkeep Hpending) as (Hobj & Hworld).
  split; [reflexivity |]. split; [exact Hobj | exact Hworld].
Defined.

(** [initialize(42)] against an engine that cannot be created returns
    [false] and yet creates the object: [play] no longer throws. *)
Lemma object_created_for_good_witness :
  let E := Script.env true in
  let N := Script.napi in
  let g := Addon.player_after Script.failed_start None in
  fst (fst (Addon.Initialize [Addon.Number (Script.int 42)] None
              Script.no_instance))
  = Addon.value (Addon.Boolean false) /\
  g <> None /\
  fst (fst (Addon.Play [Addon.String Script.url] g Script.idle))
  = Addon.value (Addon.Boolean false).
Proof.
  cbv zeta.
  destruct (object_created_for_good (E := Script.env true)
              (N := Script.napi) (Script.int 42) [] None Script.no_instance
              [ (Addon.Stop, [], Script.idle) ])
    as (Hg & Hplay).
  { repeat constructor. exists "stop". pick_export. }
  split; [reflexivity |]. split; [exact Hg |]. reflexivity.
Defined.

(** The object after [initialize(42)], [play(url)] and
    [recreateMediaPlayer()] against an engine without players. *)
Lemma global_object_invariant_witness :
  let E := Script.env true in
  let N := Script.napi in
  let p := snd (fst (recreateMediaPlayer Script.session Script.no_player)) in
  Addon.player_after
    [ (Addon.Initialize, [Addon.Number (Script.int 42)], Script.idle);
      (Addon.Play, [Addon.String Script.url], Script.idle);
      (Addon.RecreateMediaPlayer, [], Script.no_player) ]
    None = Some p /\
  handles_invariant p /\ idle_recording_has_no_path p /\
  initialized p = true /\ mediaPlayer p = None.
Proof.
  cbv zeta.
  pose proof (global_object_invariant (E := Script.env true)
                (N := Script.napi)
                [ (Addon.Initialize,
                   [Addon.Number (N := Script.napi) (Script.int 42)],
                   Script.idle);
                  (Addon.Play,
                   [Addon.String (N := Script.napi) Script.url],
                   Script.idle);
                  (Addon.RecreateMediaPlayer, [], Script.no_player) ])
    as H.
  assert (Hg : Addon.player_after (E := Script.env true) (N := Script.napi)
                 [ (Addon.Initialize,
                    [Addon.Number (N := Script.napi) (Script.int 42)],
                    Script.idle);
                   (Addon.Play,
                    [Addon.String (N := Script.napi) Script.url],
                    Script.idle);
                   (Addon.RecreateMediaPlayer, [], Script.no_player) ]
                 None
               = Some (snd (fst (recreateMediaPlayer (E := Script.env true)
                                   Script.session Script.no_player))))
    by (vm_compute; reflexivity).
  rewrite Hg in H.
  destruct H as (H1 & H2).
  { repeat constructor;
      [exists "initialize" | exists "play" | exists "recreateMediaPlayer"];
      pick_export. }
  split; [exact Hg |]. split; [exact H1 |]. split; [exact H2 |].
  split; reflexivity.
Defined.

(** A second [initialize] from JavaScript, with another window, after
    the session went through a stop. *)
Lemma initialize_stays_true_witness :
  let E := Script.env true in
  let N := Script.napi in
  exists p,
    Addon.player_after [ (Addon.Stop, [], Script.idle) ] (Some Script.session)
    = Some p /\
    hwnd p = 42 /\
    Addon.Initialize [Addon.Number (Script.int 7)] (Some p) Script.no_instance
    = (Addon.value (Addon.Boolean true), Some p, Script.no_instance).
Proof.
  cbv zeta.
  destruct (initialize_stays_true (E := Script.env true) (N := Script.napi)
              Script.session [ (Addon.Stop, [], Script.idle) ]
              (Script.int 7) [] Script.no_instance eq_refl)
    as (p & Hp & Hh & Hinit).
  { repeat constructor. exists "stop". pick_export. }
  exists p. split; [exact Hp |]. split; [exact Hh | exact Hinit].
Defined.
